(** * KukaJAVAdriver: the command cycle of the KUKA LBR iiwa Java bridge

    A shallow embedding of [grl::robot::arm::KukaJAVAdriver]
    (include/grl/kuka/KukaJAVAdriver.hpp) and the properties of its state
    store, of the per-tick message construction [run_one] and of the driver
    lifecycle.

    Member functions are written in a small state-and-failure monad over the
    driver object; every call into a collaborator (the FlatBuffers builder,
    the ZeroMQ transport, the logger) is recorded in a trace together with
    the state of [jt_mutex] at the moment of the call. *)

From Stdlib Require Import List String ZArith NArith Bool Lia.
From Stdlib Require Import Floats.SpecFloat.
Import ListNotations.
Open Scope string_scope.
Open Scope list_scope.

Set Implicit Arguments.

(** ** Values *)

(** A C++ [double]: an IEEE 754 binary64 datum. The driver only copies
    doubles, it never computes with them. *)
Definition double : Type := spec_float.

(** The double nearest to an integer (used to write concrete inputs). *)
Definition dbl (z : Z) : double := binary_normalize 53 1024 z 0 false.

(** [std::vector<double>::clear()]. *)
Definition clear (v : list double) : list double := [].

(** [boost::copy(src, std::back_inserter(dst))]: every element of [src], in
    order, is pushed at the back of [dst]. *)
Fixpoint boost_copy_back_inserter (src dst : list double) : list double :=
  match src with
  | [] => dst
  | x :: src' => boost_copy_back_inserter src' (dst ++ [x])
  end.

(** ** Parameters *)

Inductive ParamIndex : Type :=
| RobotTipName
| RobotTargetName
| RobotTargetBaseName
| LocalZMQAddress
| RemoteZMQAddress
| LocalHostKukaKoniUDPAddress
| LocalHostKukaKoniUDPPort
| RemoteHostKukaKoniUDPAddress
| RemoteHostKukaKoniUDPPort
| KukaCommandMode
| KukaMonitorMode
| IKGroupName.

(** [Params]: a [std::tuple] of twelve [std::string]. *)
Record Params : Type := make_tuple {
  elem0 : string; elem1 : string; elem2 : string; elem3 : string;
  elem4 : string; elem5 : string; elem6 : string; elem7 : string;
  elem8 : string; elem9 : string; elem10 : string; elem11 : string
}.

(** [std::get<I>(params)]. *)
Definition std_get (i : ParamIndex) (p : Params) : string :=
  match i with
  | RobotTipName => elem0 p
  | RobotTargetName => elem1 p
  | RobotTargetBaseName => elem2 p
  | LocalZMQAddress => elem3 p
  | RemoteZMQAddress => elem4 p
  | LocalHostKukaKoniUDPAddress => elem5 p
  | LocalHostKukaKoniUDPPort => elem6 p
  | RemoteHostKukaKoniUDPAddress => elem7 p
  | RemoteHostKukaKoniUDPPort => elem8 p
  | KukaCommandMode => elem9 p
  | KukaMonitorMode => elem10 p
  | IKGroupName => elem11 p
  end.

Definition defaultParams : Params :=
  make_tuple
    "RobotMillTip"
    "RobotMillTipTarget"
    "Robotiiwa"
    "tcp://0.0.0.0:30010"
    "tcp://172.31.1.147:30010"
    "192.170.10.100"
    "30200"
    "192.170.10.2"
    "30200"
    "JAVA"
    "JAVA"
    "IK_Group1_iiwa".

(** ** The state store *)

(** Modelled from the spec: [KukaState] is declared in grl/kuka/Kuka.hpp,
    which is not among the sources. The record has the four members the
    driver names; each is an ordered sequence of doubles whose length is
    whatever the caller stored (no length validation), default-constructed
    empty. *)
Record KukaState : Type := mkKukaState {
  torque : list double;
  commandedPosition : list double;
  commandedCartesianWrenchFeedForward : list double;
  commandedTorque : list double
}.

Definition KukaState_default : KukaState := mkKukaState [] [] [] [].

Definition set_commandedPosition (v : list double) (a : KukaState) : KukaState :=
  mkKukaState (torque a) v (commandedCartesianWrenchFeedForward a) (commandedTorque a).

Definition set_commandedTorque (v : list double) (a : KukaState) : KukaState :=
  mkKukaState (torque a) (commandedPosition a) (commandedCartesianWrenchFeedForward a) v.

(** ** The message builder and the transport *)

(** Modelled from the spec: the FlatBuffers builder and the generated
    JointState schema (grl/flatbuffer/JointState_generated.h) are not among
    the sources. A builder is a growing buffer of objects; creating an object
    copies its data into the buffer and returns the offset where it lies. The
    JointState table has three fields, in the order position, velocity,
    acceleration, each the offset of a vector of doubles. *)
Definition Offset : Type := nat.

Inductive BufferObject : Type :=
| Vector (data : list double)
| JointStateTable (position velocity acceleration : Offset).

Record FlatBufferBuilder : Type := mkBuilder {
  objects : list BufferObject;
  root : option Offset
}.

Definition emptyBuilder : FlatBufferBuilder := mkBuilder [] None.

(** The decoded message: what a receiver reads from a finished buffer. *)
Record JointState : Type := mkJointState {
  position : list double;
  velocity : list double;
  acceleration : list double
}.

Definition vector_at (b : FlatBufferBuilder) (o : Offset) : option (list double) :=
  match nth_error (objects b) o with
  | Some (Vector data) => Some data
  | _ => None
  end.

(** [grl::flatbuffer::GetJointState]: follow the root offset, then the three
    field offsets. *)
Definition GetJointState (b : FlatBufferBuilder) : option JointState :=
  match root b with
  | None => None
  | Some r =>
    match nth_error (objects b) r with
    | Some (JointStateTable p v a) =>
      match vector_at b p, vector_at b v, vector_at b a with
      | Some ps, Some vs, Some acs => Some (mkJointState ps vs acs)
      | _, _, _ => None
      end
    | _ => None
    end
  end.

(** A ZeroMQ DEALER socket with the endpoints it is bound and connected to. *)
Record Socket : Type := mkSocket {
  bound_to : option string;
  connected_to : option string
}.

(** Modelled from the spec: [AzmqFlatbuffer] (grl/AzmqFlatbuffer.hpp) is not
    among the sources. It owns the bound and connected socket and takes
    finished builders for asynchronous transmission; [outbox] holds the
    submitted buffers in submission order. *)
Record AzmqFlatbuffer : Type := mkAzmqFlatbuffer {
  socket : Socket;
  outbox : list FlatBufferBuilder
}.

(** A [std::thread] object. *)
Record Thread : Type := mkThread { joinable : bool }.

(** ** The driver object *)

Definition KUKA_LBR_DOF : nat := 7.

Record Driver : Type := mkDriver {
  m_haveReceivedRealDataCount : N;
  m_attemptedCommunicationCount : N;
  m_attemptedCommunicationConsecutiveFailureCount : N;
  m_attemptedCommunicationConsecutiveSuccessCount : N;
  device_driver_io_service_stopped : bool;
  device_driver_workP_ : bool;
  driver_threadP : option Thread;
  kukaJavaDriverP : option AzmqFlatbuffer;
  armState : KukaState;
  jt_mutex : bool;
  params_ : Params
}.

(** [KukaJAVAdriver(Params params = defaultParams())]: only [params_] is
    given; everything else takes its default member initializer. *)
Definition KukaJAVAdriver (params : Params) : Driver :=
  mkDriver 0 0 0 0 false false None None KukaState_default false params.

Definition with_io_service_stopped (b : bool) (d : Driver) : Driver :=
  mkDriver (m_haveReceivedRealDataCount d) (m_attemptedCommunicationCount d)
    (m_attemptedCommunicationConsecutiveFailureCount d)
    (m_attemptedCommunicationConsecutiveSuccessCount d)
    b (device_driver_workP_ d) (driver_threadP d)
    (kukaJavaDriverP d) (armState d) (jt_mutex d) (params_ d).

Definition with_workP (b : bool) (d : Driver) : Driver :=
  mkDriver (m_haveReceivedRealDataCount d) (m_attemptedCommunicationCount d)
    (m_attemptedCommunicationConsecutiveFailureCount d)
    (m_attemptedCommunicationConsecutiveSuccessCount d)
    (device_driver_io_service_stopped d) b (driver_threadP d)
    (kukaJavaDriverP d) (armState d) (jt_mutex d) (params_ d).

Definition with_threadP (t : option Thread) (d : Driver) : Driver :=
  mkDriver (m_haveReceivedRealDataCount d) (m_attemptedCommunicationCount d)
    (m_attemptedCommunicationConsecutiveFailureCount d)
    (m_attemptedCommunicationConsecutiveSuccessCount d)
    (device_driver_io_service_stopped d) (device_driver_workP_ d) t
    (kukaJavaDriverP d) (armState d) (jt_mutex d) (params_ d).

Definition with_kukaJavaDriverP (t : option AzmqFlatbuffer) (d : Driver) : Driver :=
  mkDriver (m_haveReceivedRealDataCount d) (m_attemptedCommunicationCount d)
    (m_attemptedCommunicationConsecutiveFailureCount d)
    (m_attemptedCommunicationConsecutiveSuccessCount d)
    (device_driver_io_service_stopped d) (device_driver_workP_ d) (driver_threadP d)
    t (armState d) (jt_mutex d) (params_ d).

Definition with_armState (a : KukaState) (d : Driver) : Driver :=
  mkDriver (m_haveReceivedRealDataCount d) (m_attemptedCommunicationCount d)
    (m_attemptedCommunicationConsecutiveFailureCount d)
    (m_attemptedCommunicationConsecutiveSuccessCount d)
    (device_driver_io_service_stopped d) (device_driver_workP_ d) (driver_threadP d)
    (kukaJavaDriverP d) a (jt_mutex d) (params_ d).

Definition with_jt_mutex (b : bool) (d : Driver) : Driver :=
  mkDriver (m_haveReceivedRealDataCount d) (m_attemptedCommunicationCount d)
    (m_attemptedCommunicationConsecutiveFailureCount d)
    (m_attemptedCommunicationConsecutiveSuccessCount d)
    (device_driver_io_service_stopped d) (device_driver_workP_ d) (driver_threadP d)
    (kukaJavaDriverP d) (armState d) b (params_ d).

Definition with_params (p : Params) (d : Driver) : Driver :=
  mkDriver (m_haveReceivedRealDataCount d) (m_attemptedCommunicationCount d)
    (m_attemptedCommunicationConsecutiveFailureCount d)
    (m_attemptedCommunicationConsecutiveSuccessCount d)
    (device_driver_io_service_stopped d) (device_driver_workP_ d) (driver_threadP d)
    (kukaJavaDriverP d) (armState d) (jt_mutex d) p.

(** ** Execution: state, failure and the trace of collaborator calls *)

(** A [boost::exception]: the error_info strings attached to it so far. *)
Record boost_exception : Type := mkException { error_infos : list string }.

(** [e << errmsg_info(msg)]. *)
Definition add_errmsg_info (e : boost_exception) (msg : string) : boost_exception :=
  mkException (error_infos e ++ [msg]).

(** A thrown object, by its dynamic type: derived from [boost::exception]
    (and so able to carry error_info), or of any other type, such as a
    [boost::system::system_error] or a [std::system_error], known by its
    [what()] text. *)
Inductive exception : Type :=
| BoostException (e : boost_exception)
| OtherException (what : string).

(** How a call ends: it returns, an exception leaves it, or the process is
    terminated. *)
Inductive outcome (A : Type) : Type :=
| Ok (a : A)
| Throw (e : exception)
| Terminated.

Arguments Ok {A} a.
Arguments Throw {A} e.
Arguments Terminated {A}.

(** The calls the driver makes into its collaborators. [EvWorkReleased] is
    the destruction of the work token that leaves the io_service without
    work. *)
Inductive Event : Type :=
| EvCopyCommandedPosition
| EvCopyTorque
| EvStoreCommandedPosition
| EvStoreCommandedTorque
| EvCopyArmState
| EvGetUnusedBufferBuilder
| EvCreateVector (data : list double)
| EvCreateJointState
| EvFinishJointStateBuffer
| EvAsyncSendFlatbuffer
| EvWorkCreated
| EvWorkReleased
| EvLogTrace (msg : string)
| EvSocketCreated
| EvBind (addr : string)
| EvConnect (addr : string)
| EvThreadStarted
| EvIoServiceStop
| EvThreadJoin.

(** The driver object and the calls made so far, each with the state of
    [jt_mutex] when it was made ([true]: held by the calling thread). *)
Record World : Type := mkWorld {
  driver : Driver;
  trace : list (Event * bool)
}.

Definition M (A : Type) : Type := World -> outcome A * World.

Definition ret {A : Type} (a : A) : M A := fun w => (Ok a, w).

Definition bind {A B : Type} (m : M A) (k : A -> M B) : M B :=
  fun w =>
    match m w with
    | (Ok a, w') => k a w'
    | (Throw e, w') => (Throw e, w')
    | (Terminated, w') => (Terminated, w')
    end.

Declare Scope driver_scope.
Delimit Scope driver_scope with driver.
Notation "x <- m ;; k" := (bind m (fun x => k))
  (at level 61, m at next level, right associativity) : driver_scope.
Notation "' pat <- m ;; k" := (bind m (fun v => match v with pat => k end))
  (at level 61, pat pattern, m at next level, right associativity) : driver_scope.
Notation "m ;; k" := (bind m (fun _ => k))
  (at level 61, right associativity) : driver_scope.
Open Scope driver_scope.

Definition read {A : Type} (field : Driver -> A) : M A :=
  fun w => (Ok (field (driver w)), w).

Definition modify (f : Driver -> Driver) : M unit :=
  fun w => (Ok tt, mkWorld (f (driver w)) (trace w)).

Definition throw {A : Type} (e : exception) : M A := fun w => (Throw e, w).

Definition terminate {A : Type} : M A := fun w => (Terminated, w).

(** [try { body } catch (boost::exception& e) { handler }]: the handler is
    entered for an exception derived from [boost::exception] only; an
    exception of any other type passes through the block. *)
Definition try_catch {A : Type} (body : M A) (handler : boost_exception -> M A) : M A :=
  fun w =>
    match body w with
    | (Throw (BoostException e), w') => handler e w'
    | r => r
    end.

(** The body of a destructor, which is [noexcept]: an exception that would
    leave it calls [std::terminate]. *)
Definition noexcept {A : Type} (body : M A) : M A :=
  fun w =>
    match body w with
    | (Throw _, w') => (Terminated, w')
    | r => r
    end.

Definition log (ev : Event) : M unit :=
  fun w => (Ok tt, mkWorld (driver w) (trace w ++ [(ev, jt_mutex (driver w))])).

(** [{ boost::lock_guard<boost::mutex> lock(jt_mutex); body }]: the mutex is
    taken on entry (the constructor returns once the calling thread holds it)
    and released when the scope is left, by return or by exception. *)
Definition lock_guard {A : Type} (body : M A) : M A :=
  fun w =>
    match body (mkWorld (with_jt_mutex true (driver w)) (trace w)) with
    | (Terminated, w') => (Terminated, w')
    | (r, w') => (r, mkWorld (with_jt_mutex false (driver w')) (trace w'))
    end.

(** Running a member function on a driver object, from an empty trace. *)
Definition call {A : Type} (m : M A) (d : Driver) : outcome A * World :=
  m (mkWorld d []).

(** *** The builder's operations *)

(** Modelled from the spec: [AzmqFlatbuffer::GetUnusedBufferBuilder] is not
    among the sources; it hands out a builder ready for a new message. *)
Definition GetUnusedBufferBuilder : M FlatBufferBuilder :=
  log EvGetUnusedBufferBuilder ;; ret emptyBuilder.

(** [fbbP->CreateVector(&joints[0], joints.size())]: the elements are copied
    into the buffer at the time of the call. *)
Definition CreateVector (data : list double) (b : FlatBufferBuilder)
  : M (Offset * FlatBufferBuilder) :=
  log (EvCreateVector data) ;;
  ret (List.length (objects b), mkBuilder (objects b ++ [Vector data]) (root b)).

(** Modelled from the spec: [grl::flatbuffer::CreateJointState] (generated
    code, not among the sources) writes the table of the three field offsets,
    in the order position, velocity, acceleration. *)
Definition CreateJointState (b : FlatBufferBuilder) (pos vel acc : Offset)
  : M (Offset * FlatBufferBuilder) :=
  log EvCreateJointState ;;
  ret (List.length (objects b), mkBuilder (objects b ++ [JointStateTable pos vel acc]) (root b)).

(** Modelled from the spec: [grl::flatbuffer::FinishJointStateBuffer]
    (generated code, not among the sources) makes the table the root of the
    buffer. *)
Definition FinishJointStateBuffer (b : FlatBufferBuilder) (r : Offset)
  : M FlatBufferBuilder :=
  log EvFinishJointStateBuffer ;;
  ret (mkBuilder (objects b) (Some r)).

(** Modelled from the spec: [AzmqFlatbuffer::async_send_flatbuffer] is not
    among the sources. [kukaJavaDriverP->async_send_flatbuffer(fbbP)] hands
    the builder over; nothing is awaited. *)
Definition async_send_flatbuffer (b : FlatBufferBuilder) : M unit :=
  log EvAsyncSendFlatbuffer ;;
  modify (fun d =>
    match kukaJavaDriverP d with
    | Some t => with_kukaJavaDriverP (Some (mkAzmqFlatbuffer (socket t) (outbox t ++ [b]))) d
    | None => d
    end).

(** ** The member functions *)

(** [bool run_one()]. *)
Definition run_one : M bool :=
  let haveNewData := false in
  p <- read kukaJavaDriverP ;;
  match p with
  | Some _ =>
    let joints : list double := [] in
    fbbP <- GetUnusedBufferBuilder ;;
    let joints := clear joints in
    joints <- lock_guard (
      log EvCopyCommandedPosition ;;
      a <- read armState ;;
      ret (boost_copy_back_inserter (commandedPosition a) joints)) ;;
    '(jointPos, fbbP) <- CreateVector joints fbbP ;;
    let joints := clear joints in
    lock_guard (
      '(jointVel, fbbP) <- CreateVector joints fbbP ;;
      let joints := clear joints in
      log EvCopyTorque ;;
      a <- read armState ;;
      let joints := boost_copy_back_inserter (torque a) joints in
      '(jointAccel, fbbP) <- CreateVector joints fbbP ;;
      '(jointState, fbbP) <- CreateJointState fbbP jointPos jointVel jointAccel ;;
      fbbP <- FinishJointStateBuffer fbbP jointState ;;
      async_send_flatbuffer fbbP)
  | None => ret tt
  end ;;
  ret haveNewData.

(** The tags that select an overload of [set] (grl/tags.hpp). *)
Inductive command_tag : Type :=
| revolute_joint_angle_open_chain_command_tag
| revolute_joint_torque_open_chain_command_tag
| cartesian_wrench_command_tag.

(** [set(range, revolute_joint_angle_open_chain_command_tag)]. *)
Definition set_revolute_joint_angle (range : list double) : M unit :=
  lock_guard (
    modify (fun d =>
      with_armState
        (set_commandedPosition (clear (commandedPosition (armState d))) (armState d)) d) ;;
    log EvStoreCommandedPosition ;;
    modify (fun d =>
      with_armState
        (set_commandedPosition
           (boost_copy_back_inserter range (commandedPosition (armState d)))
           (armState d)) d)).

(** [set(range, revolute_joint_torque_open_chain_command_tag)]. *)
Definition set_revolute_joint_torque (range : list double) : M unit :=
  lock_guard (
    modify (fun d =>
      with_armState
        (set_commandedTorque (clear (commandedTorque (armState d))) (armState d)) d) ;;
    log EvStoreCommandedTorque ;;
    modify (fun d =>
      with_armState
        (set_commandedTorque
           (boost_copy_back_inserter range (commandedTorque (armState d)))
           (armState d)) d)).

(** The overload set of [set]. The three overloads are member templates,
    instantiated where they are called. The body of the wrench overload is
    [std::copy(range, armState.commandedCartesianWrenchFeedForward)] under
    the lock: a call of [std::copy] with two arguments, a range and a
    container, with no [clear()] before it and no [std::back_inserter].
    [std::copy] takes (first, last, d_first); no overload accepts this call,
    so no specialization of the wrench overload can be generated and there is
    no function to run at this tag. *)
Definition set (range : list double) (tag : command_tag) : option (M unit) :=
  match tag with
  | revolute_joint_angle_open_chain_command_tag => Some (set_revolute_joint_angle range)
  | revolute_joint_torque_open_chain_command_tag => Some (set_revolute_joint_torque range)
  | cartesian_wrench_command_tag => None
  end.

(** The member of the state store that a command tag names. *)
Definition stored (tag : command_tag) (a : KukaState) : list double :=
  match tag with
  | revolute_joint_angle_open_chain_command_tag => commandedPosition a
  | revolute_joint_torque_open_chain_command_tag => commandedTorque a
  | cartesian_wrench_command_tag => commandedCartesianWrenchFeedForward a
  end.

(** The preprocessor symbols of the build that decide what Boost.Assert
    compiles to. The driver defines none of them, and installs no assertion
    handler of its own. *)
Record Build : Type := mkBuild {
  NDEBUG : bool;
  BOOST_DISABLE_ASSERTS : bool
}.

(** [BOOST_VERIFY(expr)] (Boost.Assert). With [BOOST_DISABLE_ASSERTS] or
    [NDEBUG] defined it is [((void)(expr))]: the expression is evaluated and
    its value dropped. Otherwise it is [assert(expr)]: when the expression
    is false the assertion fails and the process is terminated. *)
Definition BOOST_VERIFY (build : Build) (expr : bool) : M unit :=
  if BOOST_DISABLE_ASSERTS build || NDEBUG build then ret tt
  else if expr then ret tt else terminate.

(** [get(output, revolute_joint_angle_open_chain_state_tag)]. *)
Definition get_revolute_joint_angle (build : Build) {OutputIterator : Type}
           (output : OutputIterator) : M unit :=
  BOOST_VERIFY build false.

(** [get(KukaState& state)]: the value assigned to [state]. *)
Definition get : M KukaState :=
  lock_guard (log EvCopyArmState ;; read armState).

(** [bool setState(State& state)]. *)
Definition setState {State : Type} (state : State) : M bool := ret true.

Definition getParams : M Params := read params_.

(** What the network does with the two addresses, decided outside the
    driver: [None] when the call succeeds, the exception it throws
    otherwise. *)
Record Network : Type := mkNetwork {
  bind_failure : string -> option exception;
  connect_failure : string -> option exception
}.

(** [azmq::socket socket(device_driver_io_service, ZMQ_DEALER)]. *)
Definition azmq_socket : M Socket :=
  log EvSocketCreated ;; ret (mkSocket None None).

Definition socket_bind (net : Network) (s : Socket) (addr : string) : M Socket :=
  log (EvBind addr) ;;
  match bind_failure net addr with
  | Some e => throw e
  | None => ret (mkSocket (Some addr) (connected_to s))
  end.

Definition socket_connect (net : Network) (s : Socket) (addr : string) : M Socket :=
  log (EvConnect addr) ;;
  match connect_failure net addr with
  | Some e => throw e
  | None => ret (mkSocket (bound_to s) (Some addr))
  end.

(** [driver_threadP.reset(new std::thread(...))]: the new worker is started
    and stored, then the thread object held before is destroyed; destroying
    a joinable [std::thread] calls [std::terminate]. *)
Definition reset_driver_thread : M unit :=
  old <- read driver_threadP ;;
  log EvThreadStarted ;;
  modify (with_threadP (Some (mkThread true))) ;;
  match old with
  | Some th => if joinable th then terminate else ret tt
  | None => ret tt
  end.

Definition connecting_message (p : Params) : string :=
  "KukaLBRiiwaRosPlugin: Connecting ZeroMQ Socket from " ++
  std_get LocalZMQAddress p ++ " to " ++ std_get RemoteZMQAddress p.

Definition unable_to_connect_message (p : Params) : string :=
  "KukaLBRiiwaRosPlugin: Unable to connect to ZeroMQ Socket from " ++
  std_get LocalZMQAddress p ++ " to " ++ std_get RemoteZMQAddress p.

(** [void construct(Params params)]. *)
Definition construct (net : Network) (params : Params) : M unit :=
  modify (with_params params) ;;
  log EvWorkCreated ;;
  modify (with_workP true) ;;
  try_catch (
    p <- read params_ ;;
    log (EvLogTrace (connecting_message p)) ;;
    socket <- azmq_socket ;;
    p <- read params_ ;;
    socket <- socket_bind net socket (std_get LocalZMQAddress p) ;;
    p <- read params_ ;;
    socket <- socket_connect net socket (std_get RemoteZMQAddress p) ;;
    modify (with_kukaJavaDriverP (Some (mkAzmqFlatbuffer socket []))) ;;
    reset_driver_thread)
  (fun e =>
    p <- read params_ ;;
    throw (BoostException (add_errmsg_info e (unable_to_connect_message p)))).

(** [void construct()]. *)
Definition construct_default (net : Network) : M unit :=
  p <- read params_ ;; construct net p.

(** [driver_threadP->join()]: joins the worker; on a thread object that is
    not joinable [std::thread::join] throws a [std::system_error]. *)
Definition thread_join (th : Thread) : M unit :=
  log EvThreadJoin ;;
  if joinable th
  then modify (with_threadP (Some (mkThread false)))
  else throw (OtherException "std::system_error: Invalid argument").

(** [~KukaJAVAdriver()]. [device_driver_workP_.reset()] destroys the work
    token if there is one, which leaves the io_service without work. *)
Definition destructor : M unit :=
  noexcept (
    wk <- read device_driver_workP_ ;;
    (if wk then log EvWorkReleased else ret tt) ;;
    modify (with_workP false) ;;
    t <- read driver_threadP ;;
    match t with
    | Some th =>
      log EvIoServiceStop ;;
      modify (with_io_service_stopped true) ;;
      thread_join th
    | None => ret tt
    end).

(** ** Sequences of calls on one driver object *)

Inductive Op : Type :=
| OpConstruct (net : Network) (params : Params)
| OpConstructDefault (net : Network)
| OpSet (range : list double) (tag : command_tag)
| OpGetJointAngle (build : Build)
| OpGet
| OpSetState
| OpGetParams
| OpRunOne
| OpDestructor.

Definition discard {A : Type} (m : M A) : M unit := _ <- m ;; ret tt.

(** One call; a [set] at a tag with no instance is no call at all. *)
Definition step (op : Op) : M unit :=
  match op with
  | OpConstruct net params => construct net params
  | OpConstructDefault net => construct_default net
  | OpSet range tag =>
    match set range tag with
    | Some m => m
    | None => ret tt
    end
  | OpGetJointAngle build => get_revolute_joint_angle build tt
  | OpGet => discard get
  | OpSetState => discard (setState tt)
  | OpGetParams => discard getParams
  | OpRunOne => discard run_one
  | OpDestructor => destructor
  end.

(** The caller runs the calls in order. An exception is caught by the caller,
    who goes on; termination of the process and the destructor end the
    sequence. *)
Fixpoint exec (ops : list Op) (w : World) : World :=
  match ops with
  | [] => w
  | op :: rest =>
    match step op w with
    | (Terminated, w') => w'
    | (_, w') =>
      match op with
      | OpDestructor => w'
      | _ => exec rest w'
      end
    end
  end.

Definition counters (d : Driver) : list N :=
  [ m_haveReceivedRealDataCount d;
    m_attemptedCommunicationCount d;
    m_attemptedCommunicationConsecutiveFailureCount d;
    m_attemptedCommunicationConsecutiveSuccessCount d ].

(** ** Vocabulary of the properties *)

(** The buffer [run_one] builds from a position and a torque sequence: three
    vectors and the table that points at them. *)
Definition joint_state_buffer (pos tq : list double) : FlatBufferBuilder :=
  mkBuilder [Vector pos; Vector []; Vector tq; JointStateTable 0 1 2] (Some 3).

(** The calls [run_one] makes when a transport is configured, in order, each
    with the state of the mutex; [mu] is the state of the mutex on entry. *)
Definition run_one_events (mu : bool) (pos tq : list double) : list (Event * bool) :=
  [ (EvGetUnusedBufferBuilder, mu);
    (EvCopyCommandedPosition, true);
    (EvCreateVector pos, false);
    (EvCreateVector [], true);
    (EvCopyTorque, true);
    (EvCreateVector tq, true);
    (EvCreateJointState, true);
    (EvFinishJointStateBuffer, true);
    (EvAsyncSendFlatbuffer, true) ].

(** Copies between the state store and a buffer of the caller. *)
Definition is_copy (ev : Event) : bool :=
  match ev with
  | EvCopyCommandedPosition | EvCopyTorque
  | EvStoreCommandedPosition | EvStoreCommandedTorque | EvCopyArmState => true
  | _ => false
  end.

(** Every call made while the mutex was held is a copy. *)
Definition mutex_held_only_for_copies (tr : list (Event * bool)) : bool :=
  forallb (fun c => implb (snd c) (is_copy (fst c))) tr.

(** Steady-state calls that are not a [set] of joint angles: they may come
    between a [set] of joint angles and the [run_one] that transmits it. *)
Definition keeps_angle_command (op : Op) : bool :=
  match op with
  | OpSet _ revolute_joint_angle_open_chain_command_tag => false
  | OpSet _ _ | OpGet | OpSetState | OpGetParams | OpRunOne => true
  | OpConstruct _ _ | OpConstructDefault _ | OpGetJointAngle _ | OpDestructor => false
  end.

(** The failure, if any, of establishing the channel for [params]: of the
    bind of the local endpoint, or else of the connect of the remote one. *)
Definition connection_failure (net : Network) (params : Params) : option exception :=
  match bind_failure net (std_get LocalZMQAddress params) with
  | Some e => Some e
  | None => connect_failure net (std_get RemoteZMQAddress params)
  end.

Definition is_bind (c : Event * bool) : bool :=
  match fst c with EvBind _ => true | _ => false end.

Definition is_connect (c : Event * bool) : bool :=
  match fst c with EvConnect _ => true | _ => false end.

Definition is_thread_start (c : Event * bool) : bool :=
  match fst c with EvThreadStarted => true | _ => false end.

(** The call that took [w] to [w'] handed exactly the buffer [b] to the
    transport: the transport is the same, its outbox one buffer longer. *)
Definition submits (w w' : World) (b : FlatBufferBuilder) : Prop :=
  exists t,
    kukaJavaDriverP (driver w) = Some t /\
    kukaJavaDriverP (driver w') = Some (mkAzmqFlatbuffer (socket t) (outbox t ++ [b])).

(** The state a [run_one] needs to transmit the joint angles [S]: they are
    the stored command and a transport is configured. *)
Definition angle_ready (S : list double) (w : World) : Prop :=
  commandedPosition (armState (driver w)) = S /\
  exists t, kukaJavaDriverP (driver w) = Some t.

(** The calls a failing [construct] makes: the bind is attempted once, the
    connect once and only after a successful bind, and no worker is started. *)
Definition failed_construct_events (net : Network) (params : Params) (mu : bool)
  : list (Event * bool) :=
  [ (EvWorkCreated, mu);
    (EvLogTrace (connecting_message params), mu);
    (EvSocketCreated, mu);
    (EvBind (std_get LocalZMQAddress params), mu) ] ++
  match bind_failure net (std_get LocalZMQAddress params) with
  | Some _ => []
  | None => [ (EvConnect (std_get RemoteZMQAddress params), mu) ]
  end.

(** [m] never changes the part [proj] of the driver, however it ends. *)
Definition keeps {X : Type} (proj : Driver -> X) {A : Type} (m : M A) : Prop :=
  forall w, proj (driver (snd (m w))) = proj (driver w).

(** *** Concrete inputs *)

(** A network on which every bind and connect succeeds. *)
Definition reachable : Network := mkNetwork (fun _ => None) (fun _ => None).

(** A network on which the local endpoint cannot be bound. *)
Definition address_in_use : Network :=
  mkNetwork (fun _ => Some (BoostException (mkException ["Address already in use"])))
            (fun _ => None).

(** A network on which the remote endpoint cannot be connected. *)
Definition unreachable_remote : Network :=
  mkNetwork (fun _ => None)
            (fun _ => Some (BoostException (mkException ["No route to host"]))).

(** A driver built with the default parameters, before [construct]. *)
Definition fresh_driver : Driver := KukaJAVAdriver defaultParams.

(** The same driver after a successful [construct]. *)
Definition running_driver : Driver :=
  driver (snd (call (construct reachable defaultParams) fresh_driver)).

Definition seven_values : list double := map dbl [1; 2; 3; 4; 5; 6; 7]%Z.

Definition six_values : list double := map dbl [10; 20; 30; 1; 2; 3]%Z.

(** *** Vocabulary of the lifecycle and of sequences of calls *)

(** The calls a [construct] makes when the bind and the connect succeed. *)
Definition successful_construct_events (params : Params) (mu : bool)
  : list (Event * bool) :=
  [ (EvWorkCreated, mu);
    (EvLogTrace (connecting_message params), mu);
    (EvSocketCreated, mu);
    (EvBind (std_get LocalZMQAddress params), mu);
    (EvConnect (std_get RemoteZMQAddress params), mu);
    (EvThreadStarted, mu) ].

(** The transport a successful [construct(params)] creates. *)
Definition transport_of (params : Params) : AzmqFlatbuffer :=
  mkAzmqFlatbuffer
    (mkSocket (Some (std_get LocalZMQAddress params))
              (Some (std_get RemoteZMQAddress params)))
    [].

(** How [construct] ends once the channel is established: destroying the
    worker held before decides. *)
Definition after_thread_reset (old : option Thread) : outcome unit :=
  match old with
  | Some th => if joinable th then Terminated else Ok tt
  | None => Ok tt
  end.

Definition command_tag_eqb (a b : command_tag) : bool :=
  match a, b with
  | revolute_joint_angle_open_chain_command_tag,
    revolute_joint_angle_open_chain_command_tag => true
  | revolute_joint_torque_open_chain_command_tag,
    revolute_joint_torque_open_chain_command_tag => true
  | cartesian_wrench_command_tag, cartesian_wrench_command_tag => true
  | _, _ => false
  end.

(** The range of the last [set] at [tag] in a sequence of calls, [init] when
    there is none. *)
Fixpoint latest_written (tag : command_tag) (ops : list Op) (init : list double)
  : list double :=
  match ops with
  | [] => init
  | op :: rest =>
    latest_written tag rest
      match op with
      | OpSet range tag' => if command_tag_eqb tag' tag then range else init
      | _ => init
      end
  end.

(** The steady-state calls: everything but the lifecycle ([construct], the
    destructor) and the unimplemented read-back. *)
Definition is_steady (op : Op) : bool :=
  match op with
  | OpSet _ _ | OpGet | OpSetState | OpGetParams | OpRunOne => true
  | OpConstruct _ _ | OpConstructDefault _ | OpGetJointAngle _ | OpDestructor => false
  end.

Definition is_set (op : Op) : bool :=
  match op with OpSet _ _ => true | _ => false end.

Definition is_construct (op : Op) : bool :=
  match op with OpConstruct _ _ | OpConstructDefault _ => true | _ => false end.

Definition is_run_one (op : Op) : bool :=
  match op with OpRunOne => true | _ => false end.

(** A control loop: for each sequence of joint angles in turn, store it and
    run one cycle. *)
Definition ticks (commands : list (list double)) : list Op :=
  flat_map (fun S => [OpSet S revolute_joint_angle_open_chain_command_tag; OpRunOne])
           commands.

(** The position field a receiver reads from a submitted buffer. *)
Definition position_of (b : FlatBufferBuilder) : option (list double) :=
  match GetJointState b with
  | Some msg => Some (position msg)
  | None => None
  end.

(** The exception that leaves [construct(params)] when the channel failed
    with [x]: the handler adds the message with the two addresses to a
    [boost::exception] and rethrows it; any other exception never enters the
    handler and leaves as it was thrown. *)
Definition leaving_construct (params : Params) (x : exception) : exception :=
  match x with
  | BoostException e =>
    BoostException (add_errmsg_info e (unable_to_connect_message params))
  | OtherException what => OtherException what
  end.

(** A network on which the bind of the local endpoint fails with an
    exception that is not a [boost::exception]. *)
Definition address_in_use_system_error : Network :=
  mkNetwork (fun _ => Some (OtherException "Address already in use")) (fun _ => None).


(** A build with assertions active. *)
Definition debug_build : Build := mkBuild false false.

(** The call the destructor makes for the work token, if one is held. *)
Definition work_release_events (held mu : bool) : list (Event * bool) :=
  if held then [ (EvWorkReleased, mu) ] else [].

(** ** Basic facts *)

Lemma boost_copy_back_inserter_app (src dst : list double) :
  boost_copy_back_inserter src dst = dst ++ src.
Proof.
  revert dst. induction src as [|x src IH]; intros dst; simpl.
  - now rewrite app_nil_r.
  - rewrite IH, <- app_assoc. reflexivity.
Qed.

Lemma clear_then_copy (src old : list double) :
  boost_copy_back_inserter src (clear old) = src.
Proof. apply boost_copy_back_inserter_app. Qed.

Lemma GetJointState_joint_state_buffer (pos tq : list double) :
  GetJointState (joint_state_buffer pos tq) = Some (mkJointState pos [] tq).
Proof. reflexivity. Qed.

(** What [run_one] does when a transport is configured, in full. *)
Lemma run_one_configured (w : World) (t : AzmqFlatbuffer) :
  kukaJavaDriverP (driver w) = Some t ->
  run_one w =
    (Ok false,
     mkWorld
       (with_jt_mutex false
          (with_kukaJavaDriverP
             (Some (mkAzmqFlatbuffer (socket t)
                      (outbox t ++
                       [joint_state_buffer (commandedPosition (armState (driver w)))
                                           (torque (armState (driver w)))])))
             (driver w)))
       (trace w ++
        run_one_events (jt_mutex (driver w))
                       (commandedPosition (armState (driver w)))
                       (torque (armState (driver w))))).
Proof.
  destruct w as [d tr]. destruct d as [c1 c2 c3 c4 st wk th tp a mu ps].
  simpl. intros ->.
  unfold run_one, bind, read, lock_guard, GetUnusedBufferBuilder, CreateVector,
    CreateJointState, FinishJointStateBuffer, async_send_flatbuffer, log, modify, ret.
  simpl.
  rewrite !clear_then_copy.
  unfold joint_state_buffer, run_one_events, with_jt_mutex, with_kukaJavaDriverP, clear.
  simpl. rewrite <- !app_assoc. reflexivity.
Qed.

Lemma run_one_unconfigured (w : World) :
  kukaJavaDriverP (driver w) = None -> run_one w = (Ok false, w).
Proof.
  intros H. unfold run_one, bind, read, ret. rewrite H. reflexivity.
Qed.

(** ** Frame reasoning: what a member function leaves alone *)

Section Frame.

Context {X : Type} (proj : Driver -> X).

Lemma keeps_ret {A : Type} (a : A) : keeps proj (ret a).
Proof. intros w. reflexivity. Qed.

Lemma keeps_read {A : Type} (field : Driver -> A) : keeps proj (read field).
Proof. intros w. reflexivity. Qed.

Lemma keeps_throw {A : Type} (e : exception) : keeps proj (@throw A e).
Proof. intros w. reflexivity. Qed.

Lemma keeps_terminate {A : Type} : keeps proj (@terminate A).
Proof. intros w. reflexivity. Qed.

Lemma keeps_log (ev : Event) : keeps proj (log ev).
Proof. intros w. reflexivity. Qed.

Lemma keeps_modify (f : Driver -> Driver) :
  (forall d, proj (f d) = proj d) -> keeps proj (modify f).
Proof. intros Hf w. apply Hf. Qed.

Lemma keeps_bind {A B : Type} (m : M A) (k : A -> M B) :
  keeps proj m -> (forall a, keeps proj (k a)) -> keeps proj (bind m k).
Proof.
  intros Hm Hk w. unfold bind. specialize (Hm w).
  destruct (m w) as [[a|e|] w1]; simpl in *; try assumption.
  rewrite Hk. assumption.
Qed.

Lemma keeps_try_catch {A : Type} (body : M A) (handler : boost_exception -> M A) :
  keeps proj body -> (forall e, keeps proj (handler e)) -> keeps proj (try_catch body handler).
Proof.
  intros Hb Hh w. unfold try_catch. specialize (Hb w).
  destruct (body w) as [[a|[e|what]|] w1]; simpl in *; try assumption.
  rewrite Hh. assumption.
Qed.

Lemma keeps_noexcept {A : Type} (body : M A) :
  keeps proj body -> keeps proj (noexcept body).
Proof.
  intros Hb w. unfold noexcept. specialize (Hb w).
  destruct (body w) as [[a|e|] w1]; simpl in *; assumption.
Qed.

Lemma keeps_lock_guard {A : Type} (body : M A) :
  (forall b d, proj (with_jt_mutex b d) = proj d) ->
  keeps proj body -> keeps proj (lock_guard body).
Proof.
  intros Hmu Hb w. unfold lock_guard.
  specialize (Hb (mkWorld (with_jt_mutex true (driver w)) (trace w))).
  destruct (body _) as [[a|e|] w1]; simpl in *;
    rewrite ?Hmu; rewrite Hb; apply Hmu.
Qed.

Lemma keeps_discard {A : Type} (m : M A) : keeps proj m -> keeps proj (discard m).
Proof. intros Hm. apply keeps_bind; [assumption | intros a; apply keeps_ret]. Qed.

End Frame.

(** Breaks a member function down to its primitive steps; the side conditions
    on [modify] are closed by computation. *)
Ltac keeps_step :=
  cbv beta;
  lazymatch goal with
  | |- keeps _ (ret _) => apply keeps_ret
  | |- keeps _ (read _) => apply keeps_read
  | |- keeps _ (throw _) => apply keeps_throw
  | |- keeps _ terminate => apply keeps_terminate
  | |- keeps _ (log _) => apply keeps_log
  | |- keeps _ (discard _) => apply keeps_discard
  | |- keeps _ (bind _ _) => apply keeps_bind; [ | intros ? ]
  | |- keeps _ (try_catch _ _) => apply keeps_try_catch; [ | intros ? ]
  | |- keeps _ (noexcept _) => apply keeps_noexcept
  | |- keeps _ (lock_guard _) => apply keeps_lock_guard; [ intros ? ?; reflexivity | ]
  | |- keeps _ (modify _) =>
    apply keeps_modify; intros d;
    first [ reflexivity | destruct (kukaJavaDriverP d); reflexivity ]
  | |- keeps _ (match ?x with _ => _ end) => destruct x
  end.

Ltac keeps_steps := repeat keeps_step.

Lemma run_one_keeps_counters : keeps counters run_one.
Proof. unfold run_one, GetUnusedBufferBuilder, CreateVector, CreateJointState,
         FinishJointStateBuffer, async_send_flatbuffer. keeps_steps. Qed.

Lemma construct_keeps_counters (net : Network) (params : Params) :
  keeps counters (construct net params).
Proof.
  unfold construct, azmq_socket, socket_bind, socket_connect, reset_driver_thread.
  keeps_steps.
Qed.

Lemma set_keeps_counters (range : list double) (tag : command_tag) (m : M unit) :
  set range tag = Some m -> keeps counters m.
Proof.
  destruct tag; simpl; intros H; inversion H; subst;
    unfold set_revolute_joint_angle, set_revolute_joint_torque; keeps_steps.
Qed.

Lemma destructor_keeps_counters : keeps counters destructor.
Proof. unfold destructor, thread_join. keeps_steps. Qed.

Lemma step_keeps_counters (op : Op) : keeps counters (step op).
Proof.
  destruct op; simpl.
  - apply construct_keeps_counters.
  - unfold construct_default. apply keeps_bind; [apply keeps_read | intros p].
    apply construct_keeps_counters.
  - destruct (set range tag) as [m|] eqn:E.
    + eapply set_keeps_counters; eassumption.
    + apply keeps_ret.
  - unfold get_revolute_joint_angle, BOOST_VERIFY. keeps_steps.
  - unfold get. keeps_steps.
  - unfold setState. keeps_steps.
  - unfold getParams. keeps_steps.
  - apply keeps_discard, run_one_keeps_counters.
  - apply destructor_keeps_counters.
Qed.

Lemma exec_keeps_counters (ops : list Op) (w : World) :
  counters (driver (exec ops w)) = counters (driver w).
Proof.
  revert w. induction ops as [|op rest IH]; intros w; simpl.
  - reflexivity.
  - pose proof (step_keeps_counters op w) as Hs.
    destruct (step op w) as [[[]|e|] w1]; simpl in Hs.
    + destruct op; rewrite ?IH; exact Hs.
    + destruct op; rewrite ?IH; exact Hs.
    + exact Hs.
Qed.

Lemma run_one_submits (w : World) (t : AzmqFlatbuffer) :
  kukaJavaDriverP (driver w) = Some t ->
  exists w',
    run_one w = (Ok false, w') /\
    submits w w' (joint_state_buffer (commandedPosition (armState (driver w)))
                                     (torque (armState (driver w)))) /\
    armState (driver w') = armState (driver w).
Proof.
  intros H. rewrite (run_one_configured w H). eexists. split; [reflexivity|].
  split.
  - exists t. split; [assumption | reflexivity].
  - reflexivity.
Qed.

(** ** Setting commands *)

Lemma set_revolute_joint_angle_run (range : list double) (w : World) :
  set_revolute_joint_angle range w =
    (Ok tt,
     mkWorld (with_jt_mutex false
                (with_armState (set_commandedPosition range (armState (driver w)))
                               (driver w)))
             (trace w ++ [(EvStoreCommandedPosition, true)])).
Proof.
  destruct w as [d tr]. destruct d as [c1 c2 c3 c4 st wk th tp a mu ps].
  unfold set_revolute_joint_angle, lock_guard, bind, modify, log. simpl.
  rewrite clear_then_copy. reflexivity.
Qed.

Lemma set_revolute_joint_torque_run (range : list double) (w : World) :
  set_revolute_joint_torque range w =
    (Ok tt,
     mkWorld (with_jt_mutex false
                (with_armState (set_commandedTorque range (armState (driver w)))
                               (driver w)))
             (trace w ++ [(EvStoreCommandedTorque, true)])).
Proof.
  destruct w as [d tr]. destruct d as [c1 c2 c3 c4 st wk th tp a mu ps].
  unfold set_revolute_joint_torque, lock_guard, bind, modify, log. simpl.
  rewrite clear_then_copy. reflexivity.
Qed.

Lemma step_keeps_angle_ready (S : list double) (op : Op) (w : World) :
  keeps_angle_command op = true ->
  angle_ready S w ->
  exists w', step op w = (Ok tt, w') /\ angle_ready S w' /\
             match op with OpDestructor => False | _ => True end.
Proof.
  intros Hop [Hpos [t Ht]].
  destruct op as [net ps|net|range tag| | | | | | ]; simpl in Hop; try discriminate.
  - destruct tag; try discriminate; simpl.
    + rewrite set_revolute_joint_torque_run. eexists. split; [reflexivity|].
      split; [|exact I]. split; simpl; [assumption | exists t; assumption].
    + eexists. split; [reflexivity|]. split; [|exact I].
      split; [assumption | exists t; assumption].
  - simpl. unfold discard, get, bind, lock_guard, log, read, ret. simpl.
    eexists. split; [reflexivity|]. split; [|exact I].
    split; simpl; [assumption | exists t; assumption].
  - simpl. eexists. split; [reflexivity|]. split; [|exact I].
    split; [assumption | exists t; assumption].
  - simpl. eexists. split; [reflexivity|]. split; [|exact I].
    split; [assumption | exists t; assumption].
  - simpl. unfold discard, bind. rewrite (run_one_configured w Ht).
    eexists. split; [reflexivity|]. split; [|exact I].
    split; simpl; [assumption | eexists; reflexivity].
Qed.

Lemma exec_keeps_angle_ready (S : list double) (ops : list Op) (w : World) :
  forallb keeps_angle_command ops = true ->
  angle_ready S w ->
  angle_ready S (exec ops w).
Proof.
  revert w. induction ops as [|op rest IH]; intros w Hops Hw; simpl.
  - assumption.
  - simpl in Hops. apply andb_prop in Hops. destruct Hops as [Hop Hrest].
    destruct (step_keeps_angle_ready op Hop Hw) as [w' [Hstep [Hw' Hnd]]].
    rewrite Hstep. destruct op; try contradiction; apply IH; assumption.
Qed.

(** ** Establishing the channel *)

Lemma construct_failure_run (net : Network) (params : Params) (w : World)
      (x : exception) :
  connection_failure net params = Some x ->
  construct net params w =
    (Throw (leaving_construct params x),
     mkWorld (with_workP true (with_params params (driver w)))
             (trace w ++ failed_construct_events net params (jt_mutex (driver w)))).
Proof.
  destruct w as [d tr]. destruct d as [c1 c2 c3 c4 st wk th tp a mu ps].
  unfold connection_failure, failed_construct_events. intros H.
  cbv [construct try_catch bind modify log read azmq_socket socket_bind
       socket_connect throw ret].
  cbn [driver trace params_ with_params with_workP std_get jt_mutex] in *.
  destruct (bind_failure net (elem3 params)) as [eb|] eqn:Eb.
  - inversion H; subst. destruct x as [e|what]; cbn; rewrite <- !app_assoc; reflexivity.
  - cbn. rewrite H. destruct x as [e|what]; cbn; rewrite <- !app_assoc; reflexivity.
Qed.

Lemma failed_construct_events_bind_once (net : Network) (params : Params) (mu : bool) :
  List.length (filter is_bind (failed_construct_events net params mu)) = 1.
Proof.
  unfold failed_construct_events.
  destruct (bind_failure net _); reflexivity.
Qed.

Lemma failed_construct_events_connect_at_most_once (net : Network) (params : Params)
      (mu : bool) :
  List.length (filter is_connect (failed_construct_events net params mu)) <= 1.
Proof.
  unfold failed_construct_events.
  destruct (bind_failure net _); simpl; lia.
Qed.

Lemma failed_construct_events_no_thread (net : Network) (params : Params) (mu : bool) :
  filter is_thread_start (failed_construct_events net params mu) = [].
Proof.
  unfold failed_construct_events.
  destruct (bind_failure net _); reflexivity.
Qed.

(** ** The command cycle *)

(** C1. Joint angles reach the position field. Let [S] be a sequence of 7
    values (the number of joints, [KUKA_LBR_DOF]) stored with
    [set(S, revolute_joint_angle_open_chain_command_tag)] on a driver with a
    transport, and let any steady-state calls other than a [set] of joint
    angles follow, so that [S] is the most recently stored angle command.
    The next [run_one] returns and hands one buffer to the transport, and
    the position field of the message in it is exactly [S], in order. *)
Theorem run_one_transmits_commanded_joint_angles :
  forall (S : list double) (d : Driver) (t : AzmqFlatbuffer) (ops : list Op),
    List.length S = KUKA_LBR_DOF ->
    kukaJavaDriverP d = Some t ->
    forallb keeps_angle_command ops = true ->
    exists m w1 w2 b msg,
      set S revolute_joint_angle_open_chain_command_tag = Some m /\
      call m d = (Ok tt, w1) /\
      run_one (exec ops w1) = (Ok false, w2) /\
      submits (exec ops w1) w2 b /\
      GetJointState b = Some msg /\
      position msg = S.
Proof.
  intros S d t ops _ Ht Hops.
  exists (set_revolute_joint_angle S).
  unfold call. rewrite set_revolute_joint_angle_run.
  eexists. 
  assert (Hready : angle_ready S
            (exec ops
               (mkWorld
                  (with_jt_mutex false
                     (with_armState
                        (set_commandedPosition S (armState (driver (mkWorld d []))))
                        (driver (mkWorld d []))))
                  (trace (mkWorld d []) ++ [(EvStoreCommandedPosition, true)])))).
  { apply exec_keeps_angle_ready; [assumption|].
    split; simpl; [reflexivity | exists t; assumption]. }
  destruct Hready as [Hpos [t' Ht']].
  destruct (run_one_submits _ Ht') as [w2 [Hrun [Hsub _]]].
  exists w2. eexists. eexists.
  split; [reflexivity|]. split; [reflexivity|].
  split; [exact Hrun|]. split; [exact Hsub|].
  split; [apply GetJointState_joint_state_buffer|].
  simpl. exact Hpos.
Qed.

Lemma run_one_transmits_commanded_joint_angles_witness :
  exists m w1 w2 b msg,
    set seven_values revolute_joint_angle_open_chain_command_tag = Some m /\
    call m running_driver = (Ok tt, w1) /\
    run_one (exec [OpSet six_values revolute_joint_torque_open_chain_command_tag;
                   OpRunOne; OpGet] w1) = (Ok false, w2) /\
    submits (exec [OpSet six_values revolute_joint_torque_open_chain_command_tag;
                   OpRunOne; OpGet] w1) w2 b /\
    GetJointState b = Some msg /\
    position msg = seven_values.
Proof.
  apply (@run_one_transmits_commanded_joint_angles seven_values running_driver
           (mkAzmqFlatbuffer
              (mkSocket (Some "tcp://0.0.0.0:30010") (Some "tcp://172.31.1.147:30010"))
              [])); reflexivity.
Defined.

(** The acceleration field is the [torque] member of the state store as it
    was before the [set]: a [set] of joint torques fills [commandedTorque],
    which [run_one] does not read. *)
Lemma run_one_acceleration_is_torque_member (T : list double) (d : Driver)
      (t : AzmqFlatbuffer) :
  kukaJavaDriverP d = Some t ->
  exists w1 w2 b msg,
    call (set_revolute_joint_torque T) d = (Ok tt, w1) /\
    commandedTorque (armState (driver w1)) = T /\
    run_one w1 = (Ok false, w2) /\
    submits w1 w2 b /\
    GetJointState b = Some msg /\
    acceleration msg = torque (armState d).
Proof.
  intros Ht. unfold call. rewrite set_revolute_joint_torque_run.
  eexists.
  assert (Ht' : kukaJavaDriverP
                  (driver (mkWorld
                     (with_jt_mutex false
                        (with_armState
                           (set_commandedTorque T (armState (driver (mkWorld d []))))
                           (driver (mkWorld d []))))
                     (trace (mkWorld d []) ++ [(EvStoreCommandedTorque, true)])))
                = Some t) by exact Ht.
  destruct (run_one_submits _ Ht') as [w2 [Hrun [Hsub _]]].
  exists w2. eexists. eexists.
  split; [reflexivity|]. split; [reflexivity|].
  split; [exact Hrun|]. split; [exact Hsub|].
  split; [apply GetJointState_joint_state_buffer | reflexivity].
Qed.

(** C2. The claim: after [set(T, revolute_joint_torque_open_chain_command_tag)]
    the next [run_one] transmits [T] in the acceleration field. Evaluated on
    a running driver with seven torque values: the [set] stores them in
    [commandedTorque], the [run_one] that follows submits a message, and the
    acceleration field of that message is empty, not the commanded
    torques. *)
Theorem commanded_torque_is_not_transmitted :
  exists m w1 w2 b msg,
    set seven_values revolute_joint_torque_open_chain_command_tag = Some m /\
    call m running_driver = (Ok tt, w1) /\
    commandedTorque (armState (driver w1)) = seven_values /\
    run_one w1 = (Ok false, w2) /\
    submits w1 w2 b /\
    GetJointState b = Some msg /\
    acceleration msg = [] /\
    acceleration msg <> seven_values.
Proof.
  destruct (@run_one_acceleration_is_torque_member seven_values running_driver
              (mkAzmqFlatbuffer
                 (mkSocket (Some "tcp://0.0.0.0:30010") (Some "tcp://172.31.1.147:30010"))
                 []) eq_refl)
    as [w1 [w2 [b [msg [Hset [Hst [Hrun [Hsub [Hmsg Hacc]]]]]]]]].
  exists (set_revolute_joint_torque seven_values), w1, w2, b, msg.
  repeat (split; [first [reflexivity | assumption]|]).
  rewrite Hacc. discriminate.
Qed.

(** C3. [run_one] returns [false] on every invocation, with or without a
    transport, whether or not a message was built and submitted. *)
Theorem run_one_returns_false :
  forall w : World, exists w', run_one w = (Ok false, w').
Proof.
  intros w. destruct (kukaJavaDriverP (driver w)) as [t|] eqn:Ht.
  - rewrite (run_one_configured w Ht). eexists. reflexivity.
  - rewrite (run_one_unconfigured w Ht). eexists. reflexivity.
Qed.

(** With a transport configured, [run_one] adds exactly [run_one_events] to
    the trace. *)
Lemma run_one_trace (w : World) (t : AzmqFlatbuffer) :
  kukaJavaDriverP (driver w) = Some t ->
  trace (snd (run_one w)) =
    trace w ++ run_one_events (jt_mutex (driver w))
                              (commandedPosition (armState (driver w)))
                              (torque (armState (driver w))).
Proof. intros Ht. rewrite (run_one_configured w Ht). reflexivity. Qed.

(** Among those calls, some that are not copies are made with the mutex
    held, whatever the stored sequences: the second lock scope of [run_one]
    closes only after the asynchronous send. *)
Lemma run_one_events_hold_mutex (mu : bool) (pos tq : list double) :
  mutex_held_only_for_copies (run_one_events mu pos tq) = false.
Proof. destruct mu; reflexivity. Qed.

(** C4. The claim: in [run_one] the mutex is held only while a field is
    copied, never where fields are appended, the message is finalized or it
    is submitted. Evaluated on a running driver: the position vector is
    created after the mutex is released, but the velocity and acceleration
    vectors, the table, the finish and the asynchronous send are all made
    inside the second lock scope, with the mutex held. *)
Theorem run_one_submits_with_mutex_held :
  exists w',
    call run_one running_driver = (Ok false, w') /\
    trace w' =
      [ (EvGetUnusedBufferBuilder, false);
        (EvCopyCommandedPosition, true);
        (EvCreateVector [], false);
        (EvCreateVector [], true);
        (EvCopyTorque, true);
        (EvCreateVector [], true);
        (EvCreateJointState, true);
        (EvFinishJointStateBuffer, true);
        (EvAsyncSendFlatbuffer, true) ] /\
    mutex_held_only_for_copies (trace w') = false /\
    jt_mutex (driver w') = false.
Proof.
  unfold call.
  rewrite (@run_one_configured (mkWorld running_driver [])
             (mkAzmqFlatbuffer
                (mkSocket (Some "tcp://0.0.0.0:30010") (Some "tcp://172.31.1.147:30010"))
                []) eq_refl).
  eexists. split; [reflexivity|].
  split; [reflexivity|]. split; reflexivity.
Qed.

(** ** The state store *)

(** C5. The claim: for each of the three command kinds, [set(V, kind)] leaves
    the sequence stored for that kind equal to [V], by clear then copy.
    On the code: the joint-angle and joint-torque overloads return with the
    sequence of their kind equal to [V] whatever was stored before, and with
    every other sequence as it was; the Cartesian-wrench overload has no
    clear and no instance to run, so no call stores [V] as the wrench. *)
Theorem set_replaces_joint_commands_only :
  forall (tag : command_tag) (V : list double) (w : World),
    match set V tag with
    | Some m =>
      exists w',
        m w = (Ok tt, w') /\
        stored tag (armState (driver w')) = V /\
        (forall tag', tag' <> tag ->
           stored tag' (armState (driver w')) = stored tag' (armState (driver w))) /\
        torque (armState (driver w')) = torque (armState (driver w))
    | None => tag = cartesian_wrench_command_tag
    end.
Proof.
  intros tag V w. destruct tag; simpl.
  - rewrite set_revolute_joint_angle_run. eexists. split; [reflexivity|].
    split; [reflexivity|]. split; [|reflexivity].
    intros tag' Hne. destruct tag'; try reflexivity. contradiction.
  - rewrite set_revolute_joint_torque_run. eexists. split; [reflexivity|].
    split; [reflexivity|]. split; [|reflexivity].
    intros tag' Hne. destruct tag'; try reflexivity. contradiction.
  - reflexivity.
Qed.

(** C6. Whenever [run_one] runs with a transport configured, whatever the
    stored state, the velocity field of the message it submits is the empty
    vector. *)
Theorem run_one_velocity_is_empty :
  forall (w : World) (t : AzmqFlatbuffer),
    kukaJavaDriverP (driver w) = Some t ->
    exists w' b msg,
      run_one w = (Ok false, w') /\
      submits w w' b /\
      GetJointState b = Some msg /\
      velocity msg = [].
Proof.
  intros w t Ht. destruct (run_one_submits w Ht) as [w' [Hrun [Hsub _]]].
  exists w'. eexists. eexists.
  split; [exact Hrun|]. split; [exact Hsub|].
  split; [apply GetJointState_joint_state_buffer | reflexivity].
Qed.

Lemma run_one_velocity_is_empty_witness :
  exists w' b msg,
    run_one (mkWorld (with_armState (mkKukaState six_values seven_values [] six_values)
                                    running_driver) []) = (Ok false, w') /\
    submits (mkWorld (with_armState (mkKukaState six_values seven_values [] six_values)
                                    running_driver) []) w' b /\
    GetJointState b = Some msg /\
    velocity msg = [].
Proof.
  apply (@run_one_velocity_is_empty
           (mkWorld (with_armState (mkKukaState six_values seven_values [] six_values)
                                   running_driver) [])
           (mkAzmqFlatbuffer
              (mkSocket (Some "tcp://0.0.0.0:30010") (Some "tcp://172.31.1.147:30010"))
              [])).
  reflexivity.
Defined.

(** C7. On a driver with no transport configured, [run_one] returns [false]
    without failing, leaves the whole driver object as it was (commanded
    state, parameters, transport handle, worker thread and all the rest) and
    calls no collaborator: nothing is built and nothing is submitted. *)
Theorem run_one_without_transport_is_a_no_op :
  forall d : Driver,
    kukaJavaDriverP d = None ->
    call run_one d = (Ok false, mkWorld d []).
Proof.
  intros d Hd. unfold call. apply run_one_unconfigured. exact Hd.
Qed.

Lemma run_one_without_transport_is_a_no_op_witness :
  call run_one fresh_driver = (Ok false, mkWorld fresh_driver []).
Proof.
  apply (run_one_without_transport_is_a_no_op fresh_driver). reflexivity.
Defined.



(** ** The lifecycle *)

(** C9, as the code has it. Let the bind of the local endpoint or the connect
    of the remote endpoint fail with the exception [x]. [construct(params)]
    then ends by an exception, at once: the bind was attempted once, the
    connect at most once, no worker was started. When [x] is derived from
    [boost::exception], the exception that reaches the caller is [x] with
    one more error_info, the message naming the local and the remote address
    of [params]; when [x] is of any other type it reaches the caller as it
    was thrown. The transport handle and the worker thread are as they were
    before the call: a driver that had no transport still has none, and a
    driver that already had one keeps it. *)
Theorem construct_failure_is_augmented_and_propagated :
  forall (net : Network) (params : Params) (w : World) (x : exception),
    connection_failure net params = Some x ->
    exists thrown w' evs,
      construct net params w = (Throw thrown, w') /\
      (forall e, x = BoostException e ->
         thrown =
           BoostException
             (add_errmsg_info e
                ("KukaLBRiiwaRosPlugin: Unable to connect to ZeroMQ Socket from " ++
                 std_get LocalZMQAddress params ++ " to " ++
                 std_get RemoteZMQAddress params)%string)) /\
      (forall what, x = OtherException what -> thrown = OtherException what) /\
      trace w' = trace w ++ evs /\
      List.length (filter is_bind evs) = 1 /\
      List.length (filter is_connect evs) <= 1 /\
      filter is_thread_start evs = [] /\
      kukaJavaDriverP (driver w') = kukaJavaDriverP (driver w) /\
      driver_threadP (driver w') = driver_threadP (driver w) /\
      (kukaJavaDriverP (driver w) = None -> kukaJavaDriverP (driver w') = None).
Proof.
  intros net params w x Hx.
  rewrite (construct_failure_run net params w Hx).
  eexists. eexists. eexists. split; [reflexivity|].
  split; [intros e ->; reflexivity|].
  split; [intros what ->; reflexivity|].
  split; [reflexivity|].
  split; [apply failed_construct_events_bind_once|].
  split; [apply failed_construct_events_connect_at_most_once|].
  split; [apply failed_construct_events_no_thread|].
  split; [reflexivity|]. split; [reflexivity|].
  intros H. exact H.
Qed.

Lemma construct_failure_is_augmented_and_propagated_witness :
  connection_failure unreachable_remote defaultParams =
    Some (BoostException (mkException ["No route to host"])) /\
  exists thrown w' evs,
    construct unreachable_remote defaultParams (mkWorld fresh_driver []) =
      (Throw thrown, w') /\
    (forall e, BoostException (mkException ["No route to host"]) = BoostException e ->
       thrown =
         BoostException
           (add_errmsg_info e
              ("KukaLBRiiwaRosPlugin: Unable to connect to ZeroMQ Socket from " ++
               std_get LocalZMQAddress defaultParams ++ " to " ++
               std_get RemoteZMQAddress defaultParams)%string)) /\
    (forall what, BoostException (mkException ["No route to host"]) = OtherException what ->
       thrown = OtherException what) /\
    trace w' = trace (mkWorld fresh_driver []) ++ evs /\
    List.length (filter is_bind evs) = 1 /\
    List.length (filter is_connect evs) <= 1 /\
    filter is_thread_start evs = [] /\
    kukaJavaDriverP (driver w') = kukaJavaDriverP (driver (mkWorld fresh_driver [])) /\
    driver_threadP (driver w') = driver_threadP (driver (mkWorld fresh_driver [])) /\
    (kukaJavaDriverP (driver (mkWorld fresh_driver [])) = None ->
     kukaJavaDriverP (driver w') = None).
Proof.
  split; [reflexivity|].
  apply (@construct_failure_is_augmented_and_propagated unreachable_remote
           defaultParams (mkWorld fresh_driver [])
           (BoostException (mkException ["No route to host"]))).
  reflexivity.
Defined.

(** A failing [construct] on a driver that is already running: the bind of
    the local endpoint fails (the address is in use), the augmented exception
    is thrown, and the driver still holds the transport of the first
    [construct]; the next [run_one] submits a message through it. *)
Lemma construct_failure_keeps_transport_of_running_driver :
  kukaJavaDriverP running_driver <> None /\
  connection_failure address_in_use defaultParams =
    Some (BoostException (mkException ["Address already in use"])) /\
  exists w1 w2 b,
    call (construct address_in_use defaultParams) running_driver =
      (Throw (BoostException (mkException
                ["Address already in use";
                 "KukaLBRiiwaRosPlugin: Unable to connect to ZeroMQ Socket from tcp://0.0.0.0:30010 to tcp://172.31.1.147:30010"])),
       w1) /\
    kukaJavaDriverP (driver w1) =
      Some (mkAzmqFlatbuffer
              (mkSocket (Some "tcp://0.0.0.0:30010") (Some "tcp://172.31.1.147:30010"))
              []) /\
    kukaJavaDriverP (driver w1) <> None /\
    run_one w1 = (Ok false, w2) /\
    submits w1 w2 b.
Proof.
  split; [discriminate|]. split; [reflexivity|].
  pose (w1 := mkWorld (with_workP true (with_params defaultParams running_driver))
                      ([] ++ failed_construct_events address_in_use defaultParams false)).
  assert (Ht : kukaJavaDriverP (driver w1) =
               Some (mkAzmqFlatbuffer
                       (mkSocket (Some "tcp://0.0.0.0:30010")
                                 (Some "tcp://172.31.1.147:30010")) []))
    by reflexivity.
  destruct (run_one_submits w1 Ht) as [w2 [Hrun [Hsub _]]].
  exists w1, w2. eexists.
  split.
  { unfold call.
    rewrite (@construct_failure_run address_in_use defaultParams
               (mkWorld running_driver [])
               (BoostException (mkException ["Address already in use"]))
               eq_refl).
    reflexivity. }
  split; [exact Ht|]. split; [rewrite Ht; discriminate|].
  split; [exact Hrun | exact Hsub].
Qed.

(** A failing [construct] whose failure is not a [boost::exception]: the bind
    of the local endpoint throws a system error, the handler is not entered,
    and the exception reaches the caller without the message that names the
    addresses. *)
Lemma construct_failure_of_other_type_is_not_augmented :
  connection_failure address_in_use_system_error defaultParams =
    Some (OtherException "Address already in use") /\
  exists w1,
    call (construct address_in_use_system_error defaultParams) fresh_driver =
      (Throw (OtherException "Address already in use"), w1) /\
    kukaJavaDriverP (driver w1) = None.
Proof.
  split; [reflexivity|].
  eexists. split.
  - unfold call.
    rewrite (@construct_failure_run address_in_use_system_error defaultParams
               (mkWorld fresh_driver []) (OtherException "Address already in use")
               eq_refl).
    reflexivity.
  - reflexivity.
Qed.

(** C9 as stated fails at two inputs. On a running driver, a [construct]
    whose bind fails leaves the driver with the transport it had: the handle
    is still set. On a new driver, a bind that fails with an exception that
    is not a [boost::exception] reaches the caller without the attempted
    addresses. *)
Lemma construct_failure_counterexamples :
  (exists thrown w1,
     connection_failure address_in_use defaultParams <> None /\
     call (construct address_in_use defaultParams) running_driver = (Throw thrown, w1) /\
     kukaJavaDriverP (driver w1) <> None) /\
  (exists w1,
     connection_failure address_in_use_system_error defaultParams <> None /\
     call (construct address_in_use_system_error defaultParams) fresh_driver =
       (Throw (OtherException "Address already in use"), w1)).
Proof.
  split.
  - destruct construct_failure_keeps_transport_of_running_driver
      as [_ [_ [w1 [w2 [b [Hc [_ [Hn _]]]]]]]].
    eexists. exists w1. split; [discriminate|]. split; [exact Hc | exact Hn].
  - destruct construct_failure_of_other_type_is_not_augmented as [_ [w1 [Hc _]]].
    exists w1. split; [discriminate | exact Hc].
Qed.

(** C10. No operation of the driver writes the four communication health
    counters: after any sequence of [construct], [set] of any kind, [get],
    [setState], [getParams], [run_one] and the destructor on a newly built
    driver, each of them still holds its initial value 0. *)
Theorem health_counters_stay_zero :
  forall (params : Params) (ops : list Op),
    let d := driver (exec ops (mkWorld (KukaJAVAdriver params) [])) in
    m_haveReceivedRealDataCount d = 0%N /\
    m_attemptedCommunicationCount d = 0%N /\
    m_attemptedCommunicationConsecutiveFailureCount d = 0%N /\
    m_attemptedCommunicationConsecutiveSuccessCount d = 0%N.
Proof.
  intros params ops d.
  pose proof (exec_keeps_counters ops (mkWorld (KukaJAVAdriver params) [])) as H.
  fold d in H. unfold counters in H. simpl in H.
  inversion H as [[H1 H2 H3 H4]].
  repeat split; reflexivity || assumption.
Qed.

(** ** More on the lifecycle *)

(** What [construct] does once the bind and the connect succeed, in full. *)
Lemma construct_success_run (net : Network) (params : Params) (w : World) :
  connection_failure net params = None ->
  construct net params w =
    (after_thread_reset (driver_threadP (driver w)),
     mkWorld
       (with_threadP (Some (mkThread true))
          (with_kukaJavaDriverP (Some (transport_of params))
             (with_workP true (with_params params (driver w)))))
       (trace w ++ successful_construct_events params (jt_mutex (driver w)))).
Proof.
  destruct w as [d tr]. destruct d as [c1 c2 c3 c4 st wk th tp a mu ps].
  unfold connection_failure. intros H.
  destruct (bind_failure net (std_get LocalZMQAddress params)) as [eb|] eqn:Eb;
    [discriminate|].
  cbv [construct try_catch bind modify log read azmq_socket socket_bind
       socket_connect reset_driver_thread throw terminate ret].
  cbn [driver trace params_ with_params with_workP std_get jt_mutex] in *.
  rewrite Eb. cbn. rewrite H. cbn.
  unfold successful_construct_events, transport_of, after_thread_reset. cbn.
  rewrite <- !app_assoc.
  destruct th as [[[|]]|]; reflexivity.
Qed.

(** X1. [construct(params)] on a driver that has no worker yet, when the bind
    and the connect succeed: it returns; the driver holds [params], a work
    token, a running worker and a transport whose socket is bound to the
    local address and connected to the remote address of [params], with
    nothing submitted yet; the calls were made in the order work token, log,
    socket, bind, connect, start of the worker. The stored commands and the
    counters are untouched. *)
Theorem construct_starts_transport_and_worker :
  forall (net : Network) (params : Params) (w : World),
    connection_failure net params = None ->
    driver_threadP (driver w) = None ->
    exists w',
      construct net params w = (Ok tt, w') /\
      params_ (driver w') = params /\
      device_driver_workP_ (driver w') = true /\
      driver_threadP (driver w') = Some (mkThread true) /\
      kukaJavaDriverP (driver w') =
        Some (mkAzmqFlatbuffer
                (mkSocket (Some (std_get LocalZMQAddress params))
                          (Some (std_get RemoteZMQAddress params))) []) /\
      map fst (skipn (List.length (trace w)) (trace w')) =
        [ EvWorkCreated; EvLogTrace (connecting_message params); EvSocketCreated;
          EvBind (std_get LocalZMQAddress params);
          EvConnect (std_get RemoteZMQAddress params);
          EvThreadStarted ] /\
      armState (driver w') = armState (driver w) /\
      counters (driver w') = counters (driver w).
Proof.
  intros net params w Hnet Hth.
  rewrite (construct_success_run net params w Hnet). rewrite Hth.
  eexists. split; [reflexivity|].
  repeat (split; [reflexivity|]).
  split.
  - cbn [trace]. rewrite skipn_app, skipn_all, Nat.sub_diag. reflexivity.
  - split; reflexivity.
Qed.

Lemma construct_starts_transport_and_worker_witness :
  exists w',
    construct reachable defaultParams (mkWorld fresh_driver []) = (Ok tt, w') /\
    params_ (driver w') = defaultParams /\
    device_driver_workP_ (driver w') = true /\
    driver_threadP (driver w') = Some (mkThread true) /\
    kukaJavaDriverP (driver w') =
      Some (mkAzmqFlatbuffer
              (mkSocket (Some (std_get LocalZMQAddress defaultParams))
                        (Some (std_get RemoteZMQAddress defaultParams))) []) /\
    map fst (skipn (List.length (trace (mkWorld fresh_driver []))) (trace w')) =
      [ EvWorkCreated; EvLogTrace (connecting_message defaultParams); EvSocketCreated;
        EvBind (std_get LocalZMQAddress defaultParams);
        EvConnect (std_get RemoteZMQAddress defaultParams);
        EvThreadStarted ] /\
    armState (driver w') = armState (driver (mkWorld fresh_driver [])) /\
    counters (driver w') = counters (driver (mkWorld fresh_driver [])).
Proof.
  apply (@construct_starts_transport_and_worker reachable defaultParams
           (mkWorld fresh_driver [])); reflexivity.
Defined.

(** X2. [construct] is not re-entrant. On a driver whose worker is still
    running, a [construct] whose bind and connect succeed replaces the
    transport handle and starts a second worker, and then destroys the
    joinable thread object held before: the process is terminated instead of
    returning. *)
Theorem construct_twice_terminates :
  forall (net : Network) (params : Params) (w : World),
    connection_failure net params = None ->
    driver_threadP (driver w) = Some (mkThread true) ->
    exists w',
      construct net params w = (Terminated, w') /\
      kukaJavaDriverP (driver w') = Some (transport_of params) /\
      existsb is_thread_start (skipn (List.length (trace w)) (trace w')) = true.
Proof.
  intros net params w Hnet Hth.
  rewrite (construct_success_run net params w Hnet). rewrite Hth.
  eexists. split; [reflexivity|]. split; [reflexivity|].
  cbn [trace]. rewrite skipn_app, skipn_all, Nat.sub_diag. reflexivity.
Qed.

Lemma construct_twice_terminates_witness :
  exists w',
    construct reachable defaultParams (mkWorld running_driver []) = (Terminated, w') /\
    kukaJavaDriverP (driver w') = Some (transport_of defaultParams) /\
    existsb is_thread_start
      (skipn (List.length (trace (mkWorld running_driver []))) (trace w')) = true.
Proof.
  apply (@construct_twice_terminates reachable defaultParams
           (mkWorld running_driver [])); reflexivity.
Defined.

(** X3. Whatever the network does and however [construct(params)] ends, by
    return, by exception or by termination, the driver holds [params] and a
    work token afterwards: both are set before the channel is attempted, and
    [getParams] then returns [params]. *)
Theorem construct_always_stores_params :
  forall (net : Network) (params : Params) (w : World),
    let w' := snd (construct net params w) in
    params_ (driver w') = params /\
    device_driver_workP_ (driver w') = true /\
    getParams w' = (Ok params, w').
Proof.
  intros net params w.
  destruct (connection_failure net params) as [e|] eqn:E.
  - rewrite (construct_failure_run net params w E). cbn.
    split; [reflexivity|]. split; reflexivity.
  - rewrite (construct_success_run net params w E). cbn.
    split; [reflexivity|]. split; reflexivity.
Qed.

(** X4. When the bind of the local endpoint fails, [construct] does not
    attempt the connect, starts no worker and submits nothing: the bind is
    the last call it makes. *)
Theorem construct_bind_failure_stops_before_connect :
  forall (net : Network) (params : Params) (w : World) (e : exception),
    bind_failure net (std_get LocalZMQAddress params) = Some e ->
    exists w' evs,
      snd (construct net params w) = w' /\
      trace w' = trace w ++ evs /\
      filter is_connect evs = [] /\
      filter is_thread_start evs = [] /\
      option_map fst (nth_error (rev evs) 0) =
        Some (EvBind (std_get LocalZMQAddress params)).
Proof.
  intros net params w e Hb.
  assert (Hf : connection_failure net params = Some e).
  { unfold connection_failure. rewrite Hb. reflexivity. }
  rewrite (construct_failure_run net params w Hf).
  eexists. eexists. split; [reflexivity|]. split; [reflexivity|].
  unfold failed_construct_events. rewrite Hb.
  repeat split; reflexivity.
Qed.

Lemma construct_bind_failure_stops_before_connect_witness :
  exists w' evs,
    snd (construct address_in_use defaultParams (mkWorld fresh_driver [])) = w' /\
    trace w' = trace (mkWorld fresh_driver []) ++ evs /\
    filter is_connect evs = [] /\
    filter is_thread_start evs = [] /\
    option_map fst (nth_error (rev evs) 0) =
      Some (EvBind (std_get LocalZMQAddress defaultParams)).
Proof.
  apply (@construct_bind_failure_stops_before_connect address_in_use defaultParams
           (mkWorld fresh_driver [])
           (BoostException (mkException ["Address already in use"]))).
  reflexivity.
Defined.

(** What the destructor does, in full. *)
Lemma destructor_run (w : World) :
  destructor w =
    match driver_threadP (driver w) with
    | Some th =>
      (if joinable th then Ok tt else Terminated,
       mkWorld
         ((if joinable th then with_threadP (Some (mkThread false)) else fun d => d)
            (with_io_service_stopped true (with_workP false (driver w))))
         (trace w ++
          work_release_events (device_driver_workP_ (driver w)) (jt_mutex (driver w)) ++
          [ (EvIoServiceStop, jt_mutex (driver w));
            (EvThreadJoin, jt_mutex (driver w)) ]))
    | None =>
      (Ok tt,
       mkWorld (with_workP false (driver w))
               (trace w ++
                work_release_events (device_driver_workP_ (driver w))
                                    (jt_mutex (driver w))))
    end.
Proof.
  destruct w as [d tr]. destruct d as [c1 c2 c3 c4 st wk th tp a mu ps].
  cbv [destructor noexcept thread_join bind modify read log ret throw]. cbn.
  destruct wk, th as [[[|]]|]; cbn; rewrite <- ?app_assoc, ?app_nil_r; reflexivity.
Qed.

(** X5. The destructor of a driver on which [construct] was never called (no
    work token, no worker) returns at once: it stops nothing, joins nothing
    and leaves the object as it was. *)
Theorem destructor_without_construct_is_a_no_op :
  forall d : Driver,
    driver_threadP d = None ->
    device_driver_workP_ d = false ->
    call destructor d = (Ok tt, mkWorld d []).
Proof.
  intros d Hth Hwk. unfold call. rewrite destructor_run. cbn [driver trace].
  rewrite Hth, Hwk. destruct d as [c1 c2 c3 c4 st wk th tp a mu ps].
  cbn in Hwk. subst wk. reflexivity.
Qed.

Lemma destructor_without_construct_is_a_no_op_witness :
  call destructor fresh_driver = (Ok tt, mkWorld fresh_driver []).
Proof.
  apply (destructor_without_construct_is_a_no_op fresh_driver); reflexivity.
Defined.

(** X6. The destructor of a driver with a work token and a running worker
    releases the work token, then stops the io_service, then joins the
    worker: these three calls, in this order, all made without taking the
    mutex; afterwards the token is gone and the thread is no longer
    joinable. The transport handle, the stored commands and the parameters
    are left as they were. *)
Theorem destructor_stops_then_joins :
  forall d : Driver,
    device_driver_workP_ d = true ->
    driver_threadP d = Some (mkThread true) ->
    jt_mutex d = false ->
    exists w',
      call destructor d = (Ok tt, w') /\
      trace w' =
        [ (EvWorkReleased, false); (EvIoServiceStop, false); (EvThreadJoin, false) ] /\
      device_driver_workP_ (driver w') = false /\
      device_driver_io_service_stopped (driver w') = true /\
      driver_threadP (driver w') = Some (mkThread false) /\
      kukaJavaDriverP (driver w') = kukaJavaDriverP d /\
      armState (driver w') = armState d /\
      params_ (driver w') = params_ d.
Proof.
  intros d Hwk Hth Hmu. unfold call. rewrite destructor_run. cbn [driver trace].
  rewrite Hth, Hmu, Hwk. eexists. split; [reflexivity|].
  repeat split; reflexivity.
Qed.

Lemma destructor_stops_then_joins_witness :
  exists w',
    call destructor running_driver = (Ok tt, w') /\
    trace w' =
      [ (EvWorkReleased, false); (EvIoServiceStop, false); (EvThreadJoin, false) ] /\
    device_driver_workP_ (driver w') = false /\
    device_driver_io_service_stopped (driver w') = true /\
    driver_threadP (driver w') = Some (mkThread false) /\
    kukaJavaDriverP (driver w') = kukaJavaDriverP running_driver /\
    armState (driver w') = armState running_driver /\
    params_ (driver w') = params_ running_driver.
Proof.
  apply (@destructor_stops_then_joins running_driver); reflexivity.
Defined.

(** ** More on the state store *)

(** What [get(KukaState&)] does, in full. *)
Lemma get_run (w : World) :
  get w =
    (Ok (armState (driver w)),
     mkWorld (with_jt_mutex false (driver w)) (trace w ++ [(EvCopyArmState, true)])).
Proof.
  destruct w as [d tr]. destruct d as [c1 c2 c3 c4 st wk th tp a mu ps].
  reflexivity.
Qed.

(** One steady-state call returns, and only a [set] changes the state store:
    the sequence of its kind becomes its range. *)
Lemma step_steady (op : Op) (w : World) :
  is_steady op = true ->
  exists w',
    step op w = (Ok tt, w') /\
    commandedPosition (armState (driver w')) =
      latest_written revolute_joint_angle_open_chain_command_tag [op]
        (commandedPosition (armState (driver w))) /\
    commandedTorque (armState (driver w')) =
      latest_written revolute_joint_torque_open_chain_command_tag [op]
        (commandedTorque (armState (driver w))) /\
    torque (armState (driver w')) = torque (armState (driver w)) /\
    commandedCartesianWrenchFeedForward (armState (driver w')) =
      commandedCartesianWrenchFeedForward (armState (driver w)).
Proof.
  intros Hop.
  destruct op as [net ps|net|range tag| | | | | | ]; simpl in Hop; try discriminate.
  - destruct tag; cbn [step set].
    + rewrite set_revolute_joint_angle_run. eexists. split; [reflexivity|].
      repeat split; reflexivity.
    + rewrite set_revolute_joint_torque_run. eexists. split; [reflexivity|].
      repeat split; reflexivity.
    + eexists. split; [reflexivity|]. repeat split; reflexivity.
  - cbn [step]. unfold discard, bind. rewrite get_run.
    eexists. split; [reflexivity|]. repeat split; reflexivity.
  - eexists. split; [reflexivity|]. repeat split; reflexivity.
  - eexists. split; [reflexivity|]. repeat split; reflexivity.
  - cbn [step]. unfold discard, bind.
    destruct (kukaJavaDriverP (driver w)) as [t|] eqn:Ht.
    + rewrite (run_one_configured w Ht). eexists. split; [reflexivity|].
      repeat split; reflexivity.
    + rewrite (run_one_unconfigured w Ht). eexists. split; [reflexivity|].
      repeat split; reflexivity.
Qed.

Lemma exec_steady_cons (op : Op) (rest : list Op) (w w' : World) :
  is_steady op = true ->
  step op w = (Ok tt, w') ->
  exec (op :: rest) w = exec rest w'.
Proof.
  intros Hop Hstep. cbn [exec]. rewrite Hstep.
  destruct op; try reflexivity; discriminate.
Qed.

Lemma exec_steady (ops : list Op) (w : World) :
  forallb is_steady ops = true ->
  commandedPosition (armState (driver (exec ops w))) =
    latest_written revolute_joint_angle_open_chain_command_tag ops
      (commandedPosition (armState (driver w))) /\
  commandedTorque (armState (driver (exec ops w))) =
    latest_written revolute_joint_torque_open_chain_command_tag ops
      (commandedTorque (armState (driver w))) /\
  torque (armState (driver (exec ops w))) = torque (armState (driver w)) /\
  commandedCartesianWrenchFeedForward (armState (driver (exec ops w))) =
    commandedCartesianWrenchFeedForward (armState (driver w)).
Proof.
  revert w. induction ops as [|op rest IH]; intros w Hops.
  - repeat split; reflexivity.
  - cbn [forallb] in Hops. apply andb_prop in Hops. destruct Hops as [Hop Hrest].
    destruct (step_steady op w Hop) as [w' [Hstep [Hp [Ht [Htq Hwr]]]]].
    rewrite (@exec_steady_cons op rest w w' Hop Hstep).
    destruct (IH w' Hrest) as [IHp [IHt [IHtq IHwr]]].
    rewrite IHp, IHt, IHtq, IHwr, Hp, Ht, Htq, Hwr.
    repeat split; reflexivity.
Qed.

(** Every call leaves the mutex free when it found it free. *)
Lemma step_releases_mutex (op : Op) (w : World) :
  jt_mutex (driver w) = false ->
  jt_mutex (driver (snd (step op w))) = false.
Proof.
  intros Hmu.
  destruct op as [net ps|net|range tag| | | | | | ]; cbn [step].
  - destruct (connection_failure net ps) as [e|] eqn:E.
    + rewrite (construct_failure_run net ps w E). exact Hmu.
    + rewrite (construct_success_run net ps w E). exact Hmu.
  - unfold construct_default, bind, read.
    destruct (connection_failure net (params_ (driver w))) as [e|] eqn:E.
    + rewrite (construct_failure_run net (params_ (driver w)) w E). exact Hmu.
    + rewrite (construct_success_run net (params_ (driver w)) w E). exact Hmu.
  - destruct tag; cbn [set].
    + rewrite set_revolute_joint_angle_run. reflexivity.
    + rewrite set_revolute_joint_torque_run. reflexivity.
    + exact Hmu.
  - destruct build as [[|] [|]]; exact Hmu.
  - unfold discard, bind. rewrite get_run. reflexivity.
  - exact Hmu.
  - exact Hmu.
  - unfold discard, bind.
    destruct (kukaJavaDriverP (driver w)) as [t|] eqn:Ht.
    + rewrite (run_one_configured w Ht). reflexivity.
    + rewrite (run_one_unconfigured w Ht). exact Hmu.
  - rewrite destructor_run.
    destruct (driver_threadP (driver w)) as [[[|]]|]; exact Hmu.
Qed.

Lemma exec_releases_mutex (ops : list Op) (w : World) :
  jt_mutex (driver w) = false ->
  jt_mutex (driver (exec ops w)) = false.
Proof.
  revert w. induction ops as [|op rest IH]; intros w Hmu; cbn [exec].
  - exact Hmu.
  - pose proof (step_releases_mutex op w Hmu) as Hs.
    destruct (step op w) as [[[]|e|] w1]; cbn [snd] in Hs.
    + destruct op; try apply IH; exact Hs.
    + destruct op; try apply IH; exact Hs.
    + exact Hs.
Qed.

(** X7. Last writer wins, field by field. After any sequence of steady-state
    calls ([set] of any kind, [get], [setState], [getParams], [run_one]),
    [get(KukaState&)] returns a state whose joint angles are the range of the
    last [set] of joint angles in the sequence and whose joint torques are
    the range of the last [set] of joint torques (the values held before the
    sequence when there was no such [set]); the measured torque and the
    wrench are the ones held before. [get] itself changes nothing in the
    driver. *)
Theorem get_returns_latest_written :
  forall (ops : list Op) (w : World),
    forallb is_steady ops = true ->
    jt_mutex (driver w) = false ->
    exists state w',
      get (exec ops w) = (Ok state, w') /\
      driver w' = driver (exec ops w) /\
      commandedPosition state =
        latest_written revolute_joint_angle_open_chain_command_tag ops
          (commandedPosition (armState (driver w))) /\
      commandedTorque state =
        latest_written revolute_joint_torque_open_chain_command_tag ops
          (commandedTorque (armState (driver w))) /\
      torque state = torque (armState (driver w)) /\
      commandedCartesianWrenchFeedForward state =
        commandedCartesianWrenchFeedForward (armState (driver w)).
Proof.
  intros ops w Hops Hmu0. rewrite get_run.
  pose proof (exec_releases_mutex ops w Hmu0) as Hmu.
  destruct (exec_steady ops w Hops) as [Hp [Ht [Htq Hwr]]].
  eexists. eexists. split; [reflexivity|].
  split.
  - cbn [driver]. destruct (driver (exec ops w)) as [c1 c2 c3 c4 st wk th tp a mu ps].
    cbn in Hmu. subst mu. reflexivity.
  - repeat split; assumption.
Qed.

Lemma get_returns_latest_written_witness :
  exists state w',
    get (exec [ OpSet six_values revolute_joint_angle_open_chain_command_tag;
                OpSet six_values revolute_joint_torque_open_chain_command_tag;
                OpRunOne;
                OpSet seven_values revolute_joint_angle_open_chain_command_tag;
                OpGet ] (mkWorld running_driver [])) = (Ok state, w') /\
    driver w' =
      driver (exec [ OpSet six_values revolute_joint_angle_open_chain_command_tag;
                     OpSet six_values revolute_joint_torque_open_chain_command_tag;
                     OpRunOne;
                     OpSet seven_values revolute_joint_angle_open_chain_command_tag;
                     OpGet ] (mkWorld running_driver [])) /\
    commandedPosition state = seven_values /\
    commandedTorque state = six_values /\
    torque state = [] /\
    commandedCartesianWrenchFeedForward state = [].
Proof.
  apply (@get_returns_latest_written
           [ OpSet six_values revolute_joint_angle_open_chain_command_tag;
             OpSet six_values revolute_joint_torque_open_chain_command_tag;
             OpRunOne;
             OpSet seven_values revolute_joint_angle_open_chain_command_tag;
             OpGet ] (mkWorld running_driver [])); reflexivity.
Defined.

Lemma step_keeps_armState (op : Op) :
  is_set op = false -> keeps armState (step op).
Proof.
  intros Hop.
  destruct op; cbn [is_set] in Hop; try discriminate; cbn [step].
  - unfold construct, azmq_socket, socket_bind, socket_connect, reset_driver_thread.
    keeps_steps.
  - unfold construct_default, construct, azmq_socket, socket_bind, socket_connect,
      reset_driver_thread. keeps_steps.
  - unfold get_revolute_joint_angle, BOOST_VERIFY. keeps_steps.
  - unfold get. keeps_steps.
  - unfold setState. keeps_steps.
  - unfold getParams. keeps_steps.
  - unfold run_one, GetUnusedBufferBuilder, CreateVector, CreateJointState,
      FinishJointStateBuffer, async_send_flatbuffer. keeps_steps.
  - unfold destructor, thread_join. keeps_steps.
Qed.

(** X8. Only [set] writes the state store: every other call ([construct],
    [get] of either kind, [setState], [getParams], [run_one], the
    destructor) leaves all stored sequences as they were, however it ends. *)
Theorem only_set_changes_the_state_store :
  forall (op : Op) (w : World),
    is_set op = false ->
    armState (driver (snd (step op w))) = armState (driver w).
Proof.
  intros op w Hop. exact (step_keeps_armState op Hop w).
Qed.

Lemma only_set_changes_the_state_store_witness :
  armState (driver (snd (step OpRunOne
     (mkWorld (with_armState (mkKukaState six_values seven_values [] six_values)
                             running_driver) [])))) =
  armState (driver
     (mkWorld (with_armState (mkKukaState six_values seven_values [] six_values)
                             running_driver) [])).
Proof.
  apply (@only_set_changes_the_state_store OpRunOne). reflexivity.
Defined.

Lemma step_keeps_transport (op : Op) :
  is_construct op = false -> is_run_one op = false ->
  keeps kukaJavaDriverP (step op).
Proof.
  intros Hc Hr.
  destruct op; cbn in Hc, Hr; try discriminate; cbn [step].
  - destruct tag; cbn [set];
      unfold set_revolute_joint_angle, set_revolute_joint_torque; keeps_steps.
  - unfold get_revolute_joint_angle, BOOST_VERIFY. keeps_steps.
  - unfold get. keeps_steps.
  - unfold setState. keeps_steps.
  - unfold getParams. keeps_steps.
  - unfold destructor, thread_join. keeps_steps.
Qed.

(** X9. Only [construct] and [run_one] touch the transport: [set], [get],
    [setState], [getParams], the unimplemented read-back and the destructor
    leave the transport handle and its outbox exactly as they were; none of
    them submits or drops a message, and the destructor does not release the
    transport. *)
Theorem transport_untouched_outside_construct_and_run_one :
  forall (op : Op) (w : World),
    is_construct op = false ->
    is_run_one op = false ->
    kukaJavaDriverP (driver (snd (step op w))) = kukaJavaDriverP (driver w).
Proof.
  intros op w Hc Hr. exact (step_keeps_transport op Hc Hr w).
Qed.

Lemma transport_untouched_outside_construct_and_run_one_witness :
  kukaJavaDriverP (driver (snd (step OpDestructor (mkWorld running_driver [])))) =
  kukaJavaDriverP (driver (mkWorld running_driver [])).
Proof.
  apply (@transport_untouched_outside_construct_and_run_one OpDestructor); reflexivity.
Defined.

(** ** More on the locking discipline *)

(** X10. No call returns with the mutex held: after any sequence of calls on
    a newly built driver, whether the calls returned, threw or terminated the
    process, [jt_mutex] is free. *)
Theorem mutex_is_free_between_calls :
  forall (params : Params) (ops : list Op),
    jt_mutex (driver (exec ops (mkWorld (KukaJAVAdriver params) []))) = false.
Proof.
  intros params ops. apply exec_releases_mutex. reflexivity.
Qed.

Lemma step_events_only_copies_under_mutex (op : Op) (w : World) :
  is_run_one op = false ->
  jt_mutex (driver w) = false ->
  exists evs,
    trace (snd (step op w)) = trace w ++ evs /\
    mutex_held_only_for_copies evs = true.
Proof.
  intros Hr Hmu.
  destruct op as [net ps|net|range tag| | | | | | ]; cbn in Hr; try discriminate;
    cbn [step].
  - destruct (connection_failure net ps) as [e|] eqn:E.
    + rewrite (construct_failure_run net ps w E), Hmu. eexists.
      split; [reflexivity|]. unfold failed_construct_events.
      destruct (bind_failure net _); reflexivity.
    + rewrite (construct_success_run net ps w E), Hmu. eexists.
      split; reflexivity.
  - unfold construct_default, bind, read.
    destruct (connection_failure net (params_ (driver w))) as [e|] eqn:E.
    + rewrite (construct_failure_run net (params_ (driver w)) w E), Hmu. eexists.
      split; [reflexivity|]. unfold failed_construct_events.
      destruct (bind_failure net _); reflexivity.
    + rewrite (construct_success_run net (params_ (driver w)) w E), Hmu. eexists.
      split; reflexivity.
  - destruct tag; cbn [set].
    + rewrite set_revolute_joint_angle_run. eexists. split; reflexivity.
    + rewrite set_revolute_joint_torque_run. eexists. split; reflexivity.
    + exists []. split; [cbn; now rewrite app_nil_r | reflexivity].
  - exists []. destruct build as [[|] [|]];
      (split; [cbn; now rewrite app_nil_r | reflexivity]).
  - unfold discard, bind. rewrite get_run. eexists. split; reflexivity.
  - exists []. split; [cbn; now rewrite app_nil_r | reflexivity].
  - exists []. split; [cbn; now rewrite app_nil_r | reflexivity].
  - rewrite destructor_run, Hmu.
    destruct (driver_threadP (driver w)) as [[[|]]|];
      destruct (device_driver_workP_ (driver w));
      eexists; (split; [reflexivity|]); reflexivity.
Qed.

(** X11. Every call other than [run_one] keeps to the locking discipline:
    whatever [construct], [set], [get], [setState], [getParams], the
    read-back and the destructor call while the mutex is held is a copy to
    or from the state store; the logger, the socket, the worker and the
    io_service are only called with the mutex free. *)
Theorem calls_other_than_run_one_lock_only_for_copies :
  forall (op : Op) (w : World),
    is_run_one op = false ->
    jt_mutex (driver w) = false ->
    exists evs,
      trace (snd (step op w)) = trace w ++ evs /\
      mutex_held_only_for_copies evs = true.
Proof.
  intros op w Hr Hmu. exact (step_events_only_copies_under_mutex op w Hr Hmu).
Qed.

Lemma calls_other_than_run_one_lock_only_for_copies_witness :
  exists evs,
    trace (snd (step (OpSet seven_values revolute_joint_torque_open_chain_command_tag)
                     (mkWorld running_driver []))) =
      trace (mkWorld running_driver []) ++ evs /\
    mutex_held_only_for_copies evs = true.
Proof.
  apply (@calls_other_than_run_one_lock_only_for_copies
           (OpSet seven_values revolute_joint_torque_open_chain_command_tag)
           (mkWorld running_driver [])); reflexivity.
Defined.

(** ** More on the command cycle *)

Lemma step_without_construct_keeps_unconfigured (op : Op) (w : World) :
  is_construct op = false ->
  kukaJavaDriverP (driver w) = None ->
  kukaJavaDriverP (driver (snd (step op w))) = None.
Proof.
  intros Hc Hn.
  destruct (is_run_one op) eqn:Hr.
  - destruct op; try discriminate. cbn [step]. unfold discard, bind.
    rewrite (run_one_unconfigured w Hn). exact Hn.
  - rewrite (step_keeps_transport op Hc Hr w). exact Hn.
Qed.

Lemma exec_without_construct_keeps_unconfigured (ops : list Op) (w : World) :
  forallb (fun op => negb (is_construct op)) ops = true ->
  kukaJavaDriverP (driver w) = None ->
  kukaJavaDriverP (driver (exec ops w)) = None.
Proof.
  revert w. induction ops as [|op rest IH]; intros w Hops Hn; cbn [exec].
  - exact Hn.
  - cbn [forallb] in Hops. apply andb_prop in Hops. destruct Hops as [Hop Hrest].
    apply negb_true_iff in Hop.
    pose proof (step_without_construct_keeps_unconfigured op w Hop Hn) as Hs.
    destruct (step op w) as [[[]|e|] w1]; cbn [snd] in Hs.
    + destruct op; try (apply IH; assumption); exact Hs.
    + destruct op; try (apply IH; assumption); exact Hs.
    + exact Hs.
Qed.

(** X12. Only [construct] configures a transport. On a driver without one,
    after any sequence of calls in which [construct] does not occur
    ([set], [get], [run_one], the destructor and the rest), there is still no
    transport: every [run_one] of the sequence was a no-op and nothing was
    submitted. *)
Theorem no_transport_without_construct :
  forall (ops : list Op) (w : World),
    forallb (fun op => negb (is_construct op)) ops = true ->
    kukaJavaDriverP (driver w) = None ->
    kukaJavaDriverP (driver (exec ops w)) = None.
Proof.
  intros ops w Hops Hn. exact (exec_without_construct_keeps_unconfigured ops w Hops Hn).
Qed.

Lemma no_transport_without_construct_witness :
  kukaJavaDriverP
    (driver (exec [ OpSet seven_values revolute_joint_angle_open_chain_command_tag;
                    OpRunOne; OpGet; OpRunOne ] (mkWorld fresh_driver []))) = None.
Proof.
  apply (@no_transport_without_construct
           [ OpSet seven_values revolute_joint_angle_open_chain_command_tag;
             OpRunOne; OpGet; OpRunOne ] (mkWorld fresh_driver [])); reflexivity.
Defined.

(** X13. Commands may be stored before the driver is connected. Joint angles
    [S] stored with [set] on a driver that was never constructed survive a
    successful [construct], and the first [run_one] after it transmits them:
    the position field of the first message of the new transport is [S]. *)
Theorem commands_stored_before_construct_are_transmitted :
  forall (S : list double) (d : Driver) (net : Network) (params : Params),
    driver_threadP d = None ->
    connection_failure net params = None ->
    exists w1 w2 w3 b msg,
      call (set_revolute_joint_angle S) d = (Ok tt, w1) /\
      construct net params w1 = (Ok tt, w2) /\
      run_one w2 = (Ok false, w3) /\
      kukaJavaDriverP (driver w3) =
        Some (mkAzmqFlatbuffer (socket (transport_of params)) [b]) /\
      GetJointState b = Some msg /\
      position msg = S.
Proof.
  intros S d net params Hth Hnet.
  pose (w1 := mkWorld
                (with_jt_mutex false
                   (with_armState (set_commandedPosition S (armState d)) d))
                ([] ++ [(EvStoreCommandedPosition, true)])).
  assert (H1 : call (set_revolute_joint_angle S) d = (Ok tt, w1)).
  { unfold call. rewrite set_revolute_joint_angle_run. reflexivity. }
  assert (Hth1 : driver_threadP (driver w1) = None) by exact Hth.
  pose proof (construct_success_run net params w1 Hnet) as H2.
  rewrite Hth1 in H2. cbn [after_thread_reset] in H2.
  match type of H2 with _ = (_, ?x) => set (w2 := x) in * end.
  assert (Ht2 : kukaJavaDriverP (driver w2) = Some (transport_of params))
    by reflexivity.
  pose proof (run_one_configured w2 Ht2) as H3.
  exists w1, w2. eexists. eexists. eexists.
  split; [exact H1|]. split; [exact H2|]. split; [exact H3|].
  split; [reflexivity|].
  split; [apply GetJointState_joint_state_buffer | reflexivity].
Qed.

Lemma commands_stored_before_construct_are_transmitted_witness :
  exists w1 w2 w3 b msg,
    call (set_revolute_joint_angle seven_values) fresh_driver = (Ok tt, w1) /\
    construct reachable defaultParams w1 = (Ok tt, w2) /\
    run_one w2 = (Ok false, w3) /\
    kukaJavaDriverP (driver w3) =
      Some (mkAzmqFlatbuffer (socket (transport_of defaultParams)) [b]) /\
    GetJointState b = Some msg /\
    position msg = seven_values.
Proof.
  apply (@commands_stored_before_construct_are_transmitted seven_values fresh_driver
           reachable defaultParams); reflexivity.
Defined.

Lemma position_of_joint_state_buffers (commands : list (list double)) (tq : list double) :
  map position_of (map (fun S => joint_state_buffer S tq) commands) = map Some commands.
Proof.
  induction commands as [|S rest IH]; cbn [map].
  - reflexivity.
  - rewrite IH. reflexivity.
Qed.

Lemma exec_ticks (commands : list (list double)) (w : World) (t : AzmqFlatbuffer)
      (tq : list double) :
  kukaJavaDriverP (driver w) = Some t ->
  torque (armState (driver w)) = tq ->
  kukaJavaDriverP (driver (exec (ticks commands) w)) =
    Some (mkAzmqFlatbuffer (socket t)
            (outbox t ++ map (fun S => joint_state_buffer S tq) commands)).
Proof.
  revert w t. induction commands as [|S rest IH]; intros w t Ht Htq.
  - cbn. rewrite app_nil_r. rewrite Ht. destruct t; reflexivity.
  - change (ticks (S :: rest))
      with (OpSet S revolute_joint_angle_open_chain_command_tag :: OpRunOne :: ticks rest).
    rewrite (@exec_steady_cons (OpSet S revolute_joint_angle_open_chain_command_tag)
               (OpRunOne :: ticks rest) w _ eq_refl
               (set_revolute_joint_angle_run S w)).
    set (w1 := mkWorld _ _).
    assert (Ht1 : kukaJavaDriverP (driver w1) = Some t) by exact Ht.
    assert (Hstep : step OpRunOne w1 =
              (Ok tt, snd (run_one w1))).
    { cbn [step]. unfold discard, bind. rewrite (run_one_configured w1 Ht1). reflexivity. }
    rewrite (@exec_steady_cons OpRunOne (ticks rest) w1 _ eq_refl Hstep).
    rewrite (run_one_configured w1 Ht1). cbn [snd].
    erewrite IH; [ | reflexivity | exact Htq ].
    cbn [socket outbox map]. rewrite <- app_assoc.
    subst w1. cbn. rewrite Htq. reflexivity.
Qed.

(** X14. Messages leave in the order of the cycles. In a control loop that,
    for each sequence of joint angles in a list, stores it with [set] and
    calls [run_one], the transport receives exactly one new buffer per cycle,
    appended after the buffers it already held, and the position fields of
    the new buffers are the stored sequences in the order of the list. *)
Theorem control_loop_submits_in_order :
  forall (commands : list (list double)) (w : World) (t : AzmqFlatbuffer),
    kukaJavaDriverP (driver w) = Some t ->
    exists new,
      kukaJavaDriverP (driver (exec (ticks commands) w)) =
        Some (mkAzmqFlatbuffer (socket t) (outbox t ++ new)) /\
      List.length new = List.length commands /\
      map position_of new = map Some commands.
Proof.
  intros commands w t Ht.
  exists (map (fun S => joint_state_buffer S (torque (armState (driver w)))) commands).
  split; [apply (exec_ticks commands w Ht eq_refl)|].
  split; [apply length_map | apply position_of_joint_state_buffers].
Qed.

Lemma control_loop_submits_in_order_witness :
  exists new,
    kukaJavaDriverP
      (driver (exec (ticks [seven_values; six_values; seven_values])
                    (mkWorld running_driver []))) =
      Some (mkAzmqFlatbuffer (socket (transport_of defaultParams))
              (outbox (transport_of defaultParams) ++ new)) /\
    List.length new = List.length [seven_values; six_values; seven_values] /\
    map position_of new = map Some [seven_values; six_values; seven_values].
Proof.
  apply (@control_loop_submits_in_order [seven_values; six_values; seven_values]
           (mkWorld running_driver []) (transport_of defaultParams)).
  reflexivity.
Defined.
